(** * The customer-churn Glue workflow notebook

    A shallow embedding of
    [glue-workflow/customer_churn_ml_pipeline_glue_workflow.ipynb].

    The notebook is a straight-line script with one loop.  Every statement
    that reaches outside the Python process (the Glue, S3 and SageMaker
    clients, [print], [time.sleep]) is recorded as a [call] in a log; what
    the outside world answers is read from an environment [env].  The script
    itself is written in a small state-and-exception monad [M] over that
    log, cell by cell, in the order of the notebook.

    Conventions.
    - A Python [str] is represented by a Rocq [string] holding its UTF-8
      bytes, so [s.encode("utf-8")] is the byte view of [s] and
      [b.decode()] is its inverse on well-formed UTF-8 (and raises
      otherwise).
    - The environment answers every remote call; an exception raised inside
      the SDK is not part of the model.  The script's own steps (reading
      the test file, [decode], [float], [crosstab]) can raise and do so
      through [M]; the cells run in order and a raise ends the run.
    - The [while True] loop takes fuel; running out of fuel is the outcome
      [OutOfFuel], distinct from returning and from raising. *)

From Stdlib Require Import QArith Ascii.
From stdpp Require Import base strings list gmap pretty.

Open Scope string_scope.
Open Scope list_scope.
Open Scope nat_scope.

(** ** Python built-ins used by the notebook *)

Module Py.

Definition bytes := list Byte.byte.

(** The line feed character, pandas' line terminator. *)
Definition LF : string := String (Ascii.ascii_of_nat 10) "".

(** [sep.join(parts)] *)
Fixpoint join (sep : string) (parts : list string) : string :=
  match parts with
  | [] => ""
  | [p] => p
  | p :: rest => p +:+ sep +:+ join sep rest
  end.

(** [s.split(sep)] for a one-character separator: every occurrence of
    [sep] cuts, and the empty string splits into one empty piece. *)
Fixpoint split (sep : Ascii.ascii) (s : string) : list string :=
  match s with
  | "" => [""]
  | String c s' =>
      if Ascii.eqb c sep then "" :: split sep s'
      else match split sep s' with
           | [] => [String c ""]
           | w :: ws => String c w :: ws
           end
  end.

(** [str(n)] for a non-negative integer. *)
Definition str (n : nat) : string := pretty n.

(** [s.encode("utf-8")] *)
Definition encode (s : string) : bytes := String.list_byte_of_string s.

Definition between (lo hi : N) (b : Byte.byte) : bool :=
  ((lo <=? Byte.to_N b) && (Byte.to_N b <=? hi))%N.

Definition continuation : Byte.byte → bool := between 0x80 0xBF.

(** Well-formed UTF-8 as Python's decoder accepts it: shortest form only,
    no surrogates, nothing above U+10FFFF. *)
Fixpoint utf8_valid (bs : bytes) : bool :=
  match bs with
  | [] => true
  | b :: r =>
      if between 0x00 0x7F b then utf8_valid r
      else if between 0xC2 0xDF b then
        match r with
        | c1 :: r1 => continuation c1 && utf8_valid r1
        | _ => false
        end
      else if between 0xE0 0xEF b then
        match r with
        | c1 :: c2 :: r2 =>
            (if between 0xE0 0xE0 b then between 0xA0 0xBF c1
             else if between 0xED 0xED b then between 0x80 0x9F c1
             else continuation c1)
            && continuation c2 && utf8_valid r2
        | _ => false
        end
      else if between 0xF0 0xF4 b then
        match r with
        | c1 :: c2 :: c3 :: r3 =>
            (if between 0xF0 0xF0 b then between 0x90 0xBF c1
             else if between 0xF4 0xF4 b then between 0x80 0x8F c1
             else continuation c1)
            && continuation c2 && continuation c3 && utf8_valid r3
        | _ => false
        end
      else false
  end.

(** [b.decode()]: [None] stands for [UnicodeDecodeError]. *)
Definition decode (bs : bytes) : option string :=
  if utf8_valid bs then Some (String.string_of_list_byte bs) else None.

(** [x in xs] for strings. *)
Definition contains (xs : list string) (x : string) : bool :=
  bool_decide (x ∈ xs).

End Py.

(** ** The exceptions the notebook's own steps raise *)

Inductive exn :=
  | UnicodeDecodeError | ValueError | KeyError
  | EmptyDataError | FileNotFoundError | ParserError.

(** ** The part of pandas the notebook uses *)

Module Pandas.

(** What keeps the parser from making lines of fields of the file at a
    path: there is no file, its bytes are not UTF-8, or one of its lines
    has more fields than the first. *)
Inductive unreadable := NoFile | NotUtf8 | TooManyFields.

Section Frames.
Context {cell : Type}.

(** A file of comma-separated values as the parser sees it: [height]
    lines of [width] fields each. *)
Record csv_table := {
  width : nat;
  height : nat;
  field : nat → nat → cell        (* line number, field number *)
}.

(** A frame is addressed by labels: the value of column [c] in row [r]
    is [at_ c r]. *)
Record DataFrame := {
  columns : list nat;
  index : list nat;
  at_ : nat → nat → cell
}.

(** A file without a line or without a field has nothing to parse. *)
Definition is_empty (t : csv_table) : bool :=
  (width t =? 0) || (height t =? 0).

(** The frame of a file read with [header=None]: the first line is data,
    and the columns are labelled 0, 1, 2, ... *)
Definition frame_of (t : csv_table) : DataFrame :=
  {| columns := seq 0 (width t);
     index := seq 0 (height t);
     at_ := λ c r, field t r c |}.

(** [pd.read_csv(path, header=None)], by what is in the way of parsing the
    file, if anything, and by the lines of fields it parses into
    otherwise. *)
Definition read_csv (u : option unreadable) (t : csv_table) : exn + DataFrame :=
  match u with
  | Some NoFile => inl FileNotFoundError
  | Some NotUtf8 => inl UnicodeDecodeError
  | Some TooManyFields => inl ParserError
  | None => if is_empty t then inl EmptyDataError else inr (frame_of t)
  end.

(** [df[labels]]: the frame restricted to the listed columns, in the
    listed order; [None] stands for [KeyError]. *)
Definition getitem (df : DataFrame) (labels : list nat) : option DataFrame :=
  if forallb (λ l, bool_decide (l ∈ columns df)) labels
  then Some {| columns := labels; index := index df; at_ := at_ df |}
  else None.

(** [df[c]] as the list of its values. *)
Definition series (df : DataFrame) (c : nat) : list cell :=
  map (at_ df c) (index df).

(** [df[c]] for one label; [None] stands for [KeyError]. *)
Definition getcolumn (df : DataFrame) (c : nat) : option (list cell) :=
  if bool_decide (c ∈ columns df) then Some (series df c) else None.

Context (cell_str : cell → string).

(** [df.to_csv(header=..., index=...)] *)
Definition to_csv (header index_ : bool) (df : DataFrame) : string :=
  let head :=
    if header
    then [Py.join "," ((if index_ then [""] else []) ++ map Py.str (columns df))]
    else [] in
  let line r :=
    Py.join "," ((if index_ then [Py.str r] else [])
                 ++ map (λ c, cell_str (at_ df c r)) (columns df)) in
  String.concat "" (map (λ l, l +:+ Py.LF) (head ++ map line (index df))).

End Frames.
Arguments csv_table : clear implicits.
Arguments DataFrame : clear implicits.
End Pandas.

(** ** Requests to the cloud services *)

(** The keyword arguments of [glue_client.create_job]. *)
Record command := {
  cmd_Name : string;
  cmd_ScriptLocation : string;
  cmd_PythonVersion : option string
}.

Record job := {
  job_Name : string;
  job_Description : string;
  job_Role : string;
  job_MaxConcurrentRuns : nat;             (* ExecutionProperty *)
  job_Command : command;
  job_DefaultArguments : gmap string string;
  job_MaxRetries : nat;
  job_Timeout : nat;
  job_MaxCapacity : Q;
  job_GlueVersion : string
}.

(** The keyword arguments of [glue_client.create_trigger]. *)
Record action := {
  act_JobName : string;
  act_Arguments : gmap string string
}.

Record condition := {
  cond_LogicalOperator : string;
  cond_JobName : string;
  cond_State : string
}.

Record predicate := { pred_Conditions : list condition }.

Record trigger := {
  trg_Name : string;
  trg_Description : string;
  trg_Type : string;
  trg_WorkflowName : string;
  trg_StartOnCreation : option bool;
  trg_Predicate : option predicate;
  trg_Actions : list action
}.

(** What the script does to the outside world, one constructor per
    operation, named after the service action it results in. *)
Inductive call :=
  | CreateGlueRole (role_name bucket : string)
  | PutObject (local_path desired_s3_uri : string)
  | GetObject (s3_uri local_path : string)
  | CreateWorkflow (Name Description : string)
  | CreateJob (j : job)
  | CreateTrigger (t : trigger)
  | StartWorkflowRun (Name : string)
  | GetWorkflowRun (Name RunId : string) (IncludeGraph : bool)
  | Stdout (line : string)
  | Sleep (seconds : nat)
  | InvokeEndpoint (EndpointName ContentType : string) (Body : Py.bytes)
  | DeleteJob (JobName : string)
  | DeleteTrigger (Name : string)
  | DeleteWorkflow (Name : string)
  | DeleteEndpoint (EndpointName : string).

(** ** The environment *)

Record datetime := {
  year : nat; month : nat; day : nat;
  hour : nat; minute : nat; second : nat; microsecond : nat
}.

(** Everything the script reads from outside: one field per place where
    the notebook uses a value it did not compute. *)
Record env {cell : Type} := {
  uuid4_hex : string;                        (* uuid.uuid4().hex *)
  datetime_now : datetime;                   (* datetime.now() *)
  region_name : string;                      (* boto3.Session().region_name *)
  default_bucket : string;                   (* session.default_bucket() *)
  execution_role : string;                   (* sagemaker.get_execution_role() *)
  glue_role_arn_of : string → string → string;
                                             (* what create_glue_role returns *)
  uploaded_uri : string → string → string;   (* what S3Uploader.upload returns *)
  image_uri_of : string → string → string → string → string;
                                             (* sagemaker.image_uris.retrieve *)
  RunId_of : string → string;                (* start_workflow_run(...)['RunId'] *)
  Run_Status : nat → string;
      (* get_workflow_run(...)['Run']['Status'] of the poll that follows
         the given number of earlier polls *)
  test_csv_unreadable : option Pandas.unreadable;
      (* what keeps ./data/test.csv from being parsed once the download has
         returned, if anything *)
  test_csv : Pandas.csv_table cell;
      (* the lines and fields of ./data/test.csv when it is parsed *)
  endpoint_Body : string → Py.bytes → Py.bytes
      (* invoke_endpoint(...)['Body'].read(), by endpoint name and payload *)
}.
Arguments env : clear implicits.

(** ** The script monad: a log of calls, exceptions, and fuel *)

Inductive result (A : Type) :=
  | Ok (a : A)
  | Raise (e : exn)
  | OutOfFuel.
Arguments Ok {A} a.
Arguments Raise {A} e.
Arguments OutOfFuel {A}.

Definition M (A : Type) : Type := list call → result A * list call.

#[export] Instance M_ret : MRet M := λ A a log, (Ok a, log).

#[export] Instance M_bind : MBind M := λ A B f m log,
  match m log with
  | (Ok a, log') => f a log'
  | (Raise e, log') => (Raise e, log')
  | (OutOfFuel, log') => (OutOfFuel, log')
  end.

(** Perform one call: it is appended to the log. *)
Definition invoke (c : call) : M unit := λ log, (Ok (), log ++ [c]).

Definition raise {A} (e : exn) : M A := λ log, (Raise e, log).

Definition out_of_fuel {A} : M A := λ log, (OutOfFuel, log).

(** Read the log so far. *)
Definition history : M (list call) := λ log, (Ok log, log).

(** [for x in xs: body(x)] *)
Fixpoint for_each {A} (xs : list A) (body : A → M unit) : M unit :=
  match xs with
  | [] => mret ()
  | x :: rest => _ ← body x; for_each rest body
  end.

(** An optional value, its absence raised as [e]. *)
Definition or_raise {A} (e : exn) (o : option A) : M A :=
  match o with Some a => mret a | None => raise e end.

Definition is_poll (c : call) : bool :=
  match c with GetWorkflowRun _ _ _ => true | _ => false end.

Definition polls_made (log : list call) : nat := length (List.filter is_poll log).

(** ** The notebook, cell by cell *)

Module Notebook.
Section Script.
Context {cell : Type} (cell_str : cell → string).
Context {float : Type} (float_of_str : string → option float).
Context (E : env cell).

(** *** Client methods: log the call, return what the environment answers *)

Definition create_glue_role (role_name bucket : string) : M string :=
  _ ← invoke (CreateGlueRole role_name bucket);
  mret (glue_role_arn_of E role_name bucket).

Definition S3Uploader_upload (local_path desired_s3_uri : string) : M string :=
  _ ← invoke (PutObject local_path desired_s3_uri);
  mret (uploaded_uri E local_path desired_s3_uri).

Definition S3Downloader_download (s3_uri local_path : string) : M unit :=
  invoke (GetObject s3_uri local_path).

Definition create_workflow (Name Description : string) : M unit :=
  invoke (CreateWorkflow Name Description).

Definition create_job (j : job) : M unit := invoke (CreateJob j).

Definition create_trigger (t : trigger) : M unit := invoke (CreateTrigger t).

(** Returns the ['RunId'] of the response. *)
Definition start_workflow_run (Name : string) : M string :=
  _ ← invoke (StartWorkflowRun Name);
  mret (RunId_of E Name).

(** Returns the ['Run']['Status'] of the response. *)
Definition get_workflow_run (Name RunId : string) (IncludeGraph : bool) : M string :=
  log ← history;
  _ ← invoke (GetWorkflowRun Name RunId IncludeGraph);
  mret (Run_Status E (polls_made log)).

Definition print (line : string) : M unit := invoke (Stdout line).

Definition time_sleep (seconds : nat) : M unit := invoke (Sleep seconds).

(** Returns [response['Body'].read()]. *)
Definition invoke_endpoint (EndpointName ContentType : string) (Body : Py.bytes)
  : M Py.bytes :=
  _ ← invoke (InvokeEndpoint EndpointName ContentType Body);
  mret (endpoint_Body E EndpointName Body).

Definition delete_job (JobName : string) : M unit := invoke (DeleteJob JobName).
Definition delete_trigger (Name : string) : M unit := invoke (DeleteTrigger Name).
Definition delete_workflow (Name : string) : M unit := invoke (DeleteWorkflow Name).
Definition delete_endpoint (EndpointName : string) : M unit :=
  invoke (DeleteEndpoint EndpointName).

(** *** Import the Required Modules *)

Definition region : string := region_name E.
Definition bucket : string := default_bucket E.

Definition id : string := uuid4_hex E.

Definition sagemaker_execution_role : string := execution_role E.

Definition glue_job_prefix : string := "customer-churn-etl".
Definition glue_job_name : string := glue_job_prefix +:+ "-" +:+ id.

Definition query_function_prefix : string := "query-evaluation-result".
Definition query_function_name : string := query_function_prefix +:+ "-" +:+ id.

Definition current_time : datetime := datetime_now E.
Definition timestamp_suffix : string :=
  Py.str (month current_time) +:+ "-" +:+ Py.str (day current_time) +:+ "-"
  +:+ Py.str (hour current_time) +:+ "-" +:+ Py.str (minute current_time).

Definition endpoint_name : string := "gw-customer-churn-endpoint-" +:+ timestamp_suffix.

Definition prefix : string := "sagemaker/DEMO-xgboost-customer-churn".

(** *** Create an IAM role for Glue Job *)

Definition glue_role_name : string := "AWS-Glue-S3-SageMaker-Access".

Definition cell_glue_role : M string := create_glue_role glue_role_name bucket.

(** *** Prepare the Dataset *)

Definition train_prefix : string := "train".
Definition val_prefix : string := "validation".
Definition test_prefix : string := "test".

Definition raw_data : string := "s3://" +:+ bucket +:+ "/" +:+ prefix +:+ "/input".
Definition processed_data : string :=
  "s3://" +:+ bucket +:+ "/" +:+ prefix +:+ "/processed".

Definition train_data : string := processed_data +:+ "/" +:+ train_prefix +:+ "/".
Definition validation_data : string := processed_data +:+ "/" +:+ val_prefix +:+ "/".
Definition test_data : string := processed_data +:+ "/" +:+ test_prefix +:+ "/".

Definition cell_upload_data : M string :=
  S3Uploader_upload "../data/churn_processed.csv" raw_data.

(** *** Create Glue Workflow Object *)

Definition glue_workflow_name : string := "CustomerChurnMLWorkflow-" +:+ id.

Definition cell_create_workflow : M unit :=
  create_workflow glue_workflow_name
    "AWS Glue workflow to process data and create training jobs".

(** *** Create Glue Jobs *)

Definition data_processing_job_name : string := "DataProcessingJob-" +:+ id.

Definition data_processing_job (glue_role_arn script_path : string) : job :=
  {| job_Name := data_processing_job_name;
     job_Description := "Preparing data for SageMaker training";
     job_Role := glue_role_arn;
     job_MaxConcurrentRuns := 2;
     job_Command :=
       {| cmd_Name := "glueetl";
          cmd_ScriptLocation := script_path;
          cmd_PythonVersion := None |};
     job_DefaultArguments :=
       {[ "--job-bookmark-option" := "job-bookmark-enable";
          "--enable-metrics" := "";
          "--additional-python-modules" :=
            "pyarrow==2,awswrangler==2.9.0,fsspec==0.7.4" ]};
     job_MaxRetries := 0;
     job_Timeout := 60;
     job_MaxCapacity := (10 # 1)%Q;
     job_GlueVersion := "2.0" |}.

(** Returns [data_processing_script_path]. *)
Definition cell_data_processing_job (glue_role_arn : string) : M string :=
  data_processing_script_path ←
    S3Uploader_upload "./code/glue_preprocessing.py"
      ("s3://" +:+ bucket +:+ "/" +:+ prefix +:+ "/glue/scripts");
  _ ← create_job (data_processing_job glue_role_arn data_processing_script_path);
  mret data_processing_script_path.

Definition model_training_deployment_job_name : string :=
  "ModelTrainingDeploymentJob-" +:+ id.

Definition model_training_deployment_job (glue_role_arn script_path : string) : job :=
  {| job_Name := model_training_deployment_job_name;
     job_Description := "Model training and deployment";
     job_Role := glue_role_arn;
     job_MaxConcurrentRuns := 2;
     job_Command :=
       {| cmd_Name := "pythonshell";
          cmd_ScriptLocation := script_path;
          cmd_PythonVersion := Some "3" |};
     job_DefaultArguments :=
       {[ "--job-bookmark-option" := "job-bookmark-enable";
          "--enable-metrics" := "" ]};
     job_MaxRetries := 0;
     job_Timeout := 60;
     job_MaxCapacity := (1 # 1)%Q;
     job_GlueVersion := "1.0" |}.

(** Returns [model_training_deployment_script_path]. *)
Definition cell_model_training_deployment_job (glue_role_arn : string) : M string :=
  model_training_deployment_script_path ←
    S3Uploader_upload "./code/model_training_deployment.py"
      ("s3://" +:+ bucket +:+ "/" +:+ prefix +:+ "/glue/scripts");
  _ ← create_job (model_training_deployment_job glue_role_arn
                    model_training_deployment_script_path);
  mret model_training_deployment_script_path.

Definition model_output_path : string :=
  "s3://" +:+ bucket +:+ "/" +:+ prefix +:+ "/output".

Definition image_uri : string := image_uri_of E "xgboost" region "1.0-1" "py3".

(** *** Create Glue Triggers *)

Definition data_processing_trigger_name : string := "TriggerDataProcessingJob-" +:+ id.

Definition data_processing_trigger : trigger :=
  {| trg_Name := data_processing_trigger_name;
     trg_Description := "Triggering Data Processing Job";
     trg_Type := "ON_DEMAND";
     trg_WorkflowName := glue_workflow_name;
     trg_StartOnCreation := None;
     trg_Predicate := None;
     trg_Actions :=
       [ {| act_JobName := data_processing_job_name;
            act_Arguments :=
              {[ "--INPUT_DIR" := raw_data;
                 "--PROCESSED_DIR" := processed_data ]} |} ] |}.

Definition cell_data_processing_trigger : M unit :=
  create_trigger data_processing_trigger.

Definition model_train_deploy_trigger_name : string :=
  "TriggerModelTrainingDeploymentJob-" +:+ id.

Definition model_train_deploy_trigger : trigger :=
  {| trg_Name := model_train_deploy_trigger_name;
     trg_Description := "Triggering Model Training Deployment Job";
     trg_WorkflowName := glue_workflow_name;
     trg_Type := "CONDITIONAL";
     trg_StartOnCreation := Some true;
     trg_Predicate :=
       Some {| pred_Conditions :=
                 [ {| cond_LogicalOperator := "EQUALS";
                      cond_JobName := data_processing_job_name;
                      cond_State := "SUCCEEDED" |} ] |};
     trg_Actions :=
       [ {| act_JobName := model_training_deployment_job_name;
            act_Arguments :=
              {[ "--train_input_path" := processed_data;
                 "--model_output_path" := model_output_path;
                 "--algorithm_image" := image_uri;
                 "--role_arn" := sagemaker_execution_role;
                 "--endpoint_name" := endpoint_name ]} |} ] |}.

Definition cell_model_train_deploy_trigger : M unit :=
  create_trigger model_train_deploy_trigger.

(** *** Run the Workflow *)

(** Returns [response['RunId']]. *)
Definition cell_start_workflow_run : M string :=
  start_workflow_run glue_workflow_name.

Definition check_workflow_state (workflow_name run_id : string) : M string :=
  get_workflow_run workflow_name run_id true.

(** The body of [while True], [fuel] iterations at most. *)
Fixpoint poll_loop (fuel : nat) (RunId : string) : M unit :=
  match fuel with
  | 0 => out_of_fuel
  | S fuel' =>
      workflow_status ← check_workflow_state glue_workflow_name RunId;
      if Py.contains ["COMPLETED"; "STOPPED"; "ERROR"] workflow_status
      then print workflow_status                       (* break *)
      else
        _ ← print ".";
        _ ← time_sleep 30;
        poll_loop fuel' RunId
  end.

Definition cell_poll (fuel : nat) (RunId : string) : M unit :=
  _ ← print "Checking workflow state:";
  poll_loop fuel RunId.

(** *** Evaluate the deployed model *)

Definition test_data_file : string := "test.csv".

Definition cell_download : M unit :=
  S3Downloader_download (test_data +:+ test_data_file) "data".

(** The value of [df] once the cell that reads the test file has run. *)
Definition df : Pandas.DataFrame cell := Pandas.frame_of (test_csv E).

(** [df = pd.read_csv(f"./data/{test_data_file}", header=None)]: returns
    [df], or raises what [read_csv] raises. *)
Definition cell_read_csv : M (Pandas.DataFrame cell) :=
  match Pandas.read_csv (test_csv_unreadable E) (test_csv E) with
  | inl e => raise e
  | inr df => mret df
  end.

(** Returns [predictions]. *)
Definition cell_invoke (df : Pandas.DataFrame cell) : M (list float) :=
  features ← or_raise KeyError (Pandas.getitem df (drop 1 (Pandas.columns df)));
  let payload := Py.encode (Pandas.to_csv cell_str false false features) in
  Body ← invoke_endpoint endpoint_name "text/csv" payload;
  result ← or_raise UnicodeDecodeError (Py.decode Body);
  or_raise ValueError (mapM float_of_str (Py.split ","%char result)).

(** [pd.crosstab(index=df[0], columns=np.round(predictions), ...)].  The
    table is displayed and not used again; what is kept of the cell is what
    can stop the run: [df[0]] raises KeyError without a column 0, and
    [crosstab] raises ValueError unless there are as many predictions as
    rows ([np.round] works value by value and keeps their number). *)
Definition cell_crosstab (df : Pandas.DataFrame cell) (predictions : list float)
  : M unit :=
  actuals ← or_raise KeyError (Pandas.getcolumn df 0);
  if length actuals =? length predictions then mret () else raise ValueError.

(** *** Clean Up *)

Definition cell_clean_up_glue : M unit :=
  _ ← for_each [data_processing_job_name; model_training_deployment_job_name]
        delete_job;
  _ ← for_each [data_processing_trigger_name; model_train_deploy_trigger_name]
        delete_trigger;
  delete_workflow glue_workflow_name.

Definition cell_clean_up_endpoint : M unit := delete_endpoint endpoint_name.

(** *** The cells in notebook order *)

Definition provision : M unit :=
  glue_role_arn ← cell_glue_role;
  _ ← cell_upload_data;
  _ ← cell_create_workflow;
  _ ← cell_data_processing_job glue_role_arn;
  _ ← cell_model_training_deployment_job glue_role_arn;
  _ ← cell_data_processing_trigger;
  cell_model_train_deploy_trigger.

Definition run_workflow (fuel : nat) : M unit :=
  RunId ← cell_start_workflow_run;
  cell_poll fuel RunId.

Definition evaluate : M (list float) :=
  _ ← cell_download;
  df ← cell_read_csv;
  predictions ← cell_invoke df;
  _ ← cell_crosstab df predictions;
  mret predictions.

Definition clean_up : M unit :=
  _ ← cell_clean_up_glue;
  cell_clean_up_endpoint.

Definition notebook (fuel : nat) : M (list float) :=
  _ ← provision;
  _ ← run_workflow fuel;
  predictions ← evaluate;
  _ ← clean_up;
  mret predictions.

End Script.
End Notebook.

(** ** Reading a log *)

(** The calls of each kind a log holds, in order. *)
Definition created_workflows (log : list call) : list string :=
  omap (λ c, match c with CreateWorkflow n _ => Some n | _ => None end) log.

Definition created_jobs (log : list call) : list job :=
  omap (λ c, match c with CreateJob j => Some j | _ => None end) log.

Definition created_triggers (log : list call) : list trigger :=
  omap (λ c, match c with CreateTrigger t => Some t | _ => None end) log.

Definition deleted_jobs (log : list call) : list string :=
  omap (λ c, match c with DeleteJob n => Some n | _ => None end) log.

Definition deleted_triggers (log : list call) : list string :=
  omap (λ c, match c with DeleteTrigger n => Some n | _ => None end) log.

Definition deleted_workflows (log : list call) : list string :=
  omap (λ c, match c with DeleteWorkflow n => Some n | _ => None end) log.

Definition deleted_endpoints (log : list call) : list string :=
  omap (λ c, match c with DeleteEndpoint n => Some n | _ => None end) log.

Definition invocations (log : list call) : list (string * string * Py.bytes) :=
  omap (λ c, match c with InvokeEndpoint n t b => Some (n, t, b) | _ => None end) log.

(** The endpoint names a trigger hands to the jobs it starts. *)
Definition endpoints_handed_over (t : trigger) : list string :=
  omap (λ a, act_Arguments a !! "--endpoint_name") (trg_Actions t).

(** The five parts of the notebook a call can belong to. *)
Inductive phase := Provisioning | Starting | Polling | Evaluating | CleaningUp.

Definition phase_of (c : call) : phase :=
  match c with
  | CreateGlueRole _ _ | PutObject _ _ | CreateWorkflow _ _
  | CreateJob _ | CreateTrigger _ => Provisioning
  | StartWorkflowRun _ => Starting
  | GetWorkflowRun _ _ _ | Stdout _ | Sleep _ => Polling
  | GetObject _ _ | InvokeEndpoint _ _ _ => Evaluating
  | DeleteJob _ | DeleteTrigger _ | DeleteWorkflow _ | DeleteEndpoint _ => CleaningUp
  end.

Definition rank (p : phase) : nat :=
  match p with
  | Provisioning => 0 | Starting => 1 | Polling => 2 | Evaluating => 3 | CleaningUp => 4
  end.

Definition is_create (c : call) : bool :=
  match c with
  | CreateWorkflow _ _ | CreateJob _ | CreateTrigger _ => true
  | _ => false
  end.

Definition is_start (c : call) : bool :=
  match c with StartWorkflowRun _ => true | _ => false end.

Definition is_invocation (c : call) : bool :=
  match c with InvokeEndpoint _ _ _ => true | _ => false end.

Definition is_delete (c : call) : bool :=
  match c with
  | DeleteJob _ | DeleteTrigger _ | DeleteWorkflow _ | DeleteEndpoint _ => true
  | _ => false
  end.

(** Every call of the first kind comes before every call of the second. *)
Definition precedes (P Q : call → bool) (log : list call) : Prop :=
  ∀ i j c d, log !! i = Some c → log !! j = Some d → P c = true → Q d = true → i < j.

(** ** The account as the calls leave it *)

Inductive resource :=
  | IamRole (name : string)
  | S3Object (local_path desired_s3_uri : string)
  | GlueWorkflow (name : string)
  | GlueJob (name : string)
  | GlueTrigger (name : string)
  | Endpoint (name : string).

#[export] Instance resource_eq_dec : EqDecision resource.
Proof. solve_decision. Defined.

Definition creates (c : call) : option resource :=
  match c with
  | CreateGlueRole n _ => Some (IamRole n)
  | PutObject l u => Some (S3Object l u)
  | CreateWorkflow n _ => Some (GlueWorkflow n)
  | CreateJob j => Some (GlueJob (job_Name j))
  | CreateTrigger t => Some (GlueTrigger (trg_Name t))
  | _ => None
  end.

Definition deletes (c : call) : option resource :=
  match c with
  | DeleteJob n => Some (GlueJob n)
  | DeleteTrigger n => Some (GlueTrigger n)
  | DeleteWorkflow n => Some (GlueWorkflow n)
  | DeleteEndpoint n => Some (Endpoint n)
  | _ => None
  end.

(** A create call adds its resource, a delete call removes it.  The
    notebook's own text says of [create_glue_role] that it creates the role
    ("Create an IAM role for Glue Job"); an upload creates the object. *)
Definition account_step (live : list resource) (c : call) : list resource :=
  match creates c, deletes c with
  | Some r, _ => live ++ [r]
  | None, Some r => List.filter (λ x, negb (bool_decide (x = r))) live
  | None, None => live
  end.

(** The resources the calls of a log created and did not delete. *)
Definition left_behind (log : list call) : list resource :=
  foldl account_step [] log.

(** ** A sample session *)

(** A two-line, three-column file: label, then two features. *)
Definition sample_table : Pandas.csv_table string :=
  {| Pandas.width := 3; Pandas.height := 2;
     Pandas.field := λ r c,
       match r, c with
       | 0, 0 => "1" | 0, 1 => "0.5" | 0, 2 => "7"
       | 1, 0 => "0" | 1, 1 => "0.25" | 1, 2 => "9"
       | _, _ => "nan"
       end |}.

Definition sample_env : env string :=
  {| uuid4_hex := "0123456789abcdef0123456789abcdef";
     datetime_now :=
       {| year := 2021; month := 7; day := 4;
          hour := 9; minute := 5; second := 30; microsecond := 0 |};
     region_name := "ap-southeast-2";
     default_bucket := "sagemaker-ap-southeast-2-000000000000";
     execution_role := "arn:aws:iam::000000000000:role/SageMakerRole";
     glue_role_arn_of := λ name _, "arn:aws:iam::000000000000:role/" +:+ name;
     uploaded_uri := λ local uri, uri +:+ "/" +:+ local;
     image_uri_of := λ framework _ version _, framework +:+ ":" +:+ version;
     RunId_of := λ _, "wr_1";
     Run_Status := λ n, match n with 0 | 1 => "RUNNING" | _ => "COMPLETED" end;
     test_csv_unreadable := None;
     test_csv := sample_table;
     endpoint_Body := λ _ _, Py.encode "0.9,0.1" |}.

(** The same session with a workflow run that never leaves RUNNING. *)
Definition stuck_env : env string :=
  {| uuid4_hex := uuid4_hex sample_env;
     datetime_now := datetime_now sample_env;
     region_name := region_name sample_env;
     default_bucket := default_bucket sample_env;
     execution_role := execution_role sample_env;
     glue_role_arn_of := glue_role_arn_of sample_env;
     uploaded_uri := uploaded_uri sample_env;
     image_uri_of := image_uri_of sample_env;
     RunId_of := RunId_of sample_env;
     Run_Status := λ _, "RUNNING";
     test_csv_unreadable := test_csv_unreadable sample_env;
     test_csv := test_csv sample_env;
     endpoint_Body := endpoint_Body sample_env |}.

(** The sample session again, the labels in the first column of the test
    file exchanged. *)
Definition relabelled_table : Pandas.csv_table string :=
  {| Pandas.width := Pandas.width sample_table;
     Pandas.height := Pandas.height sample_table;
     Pandas.field := λ r c,
       match c with
       | 0 => if String.eqb (Pandas.field sample_table r 0) "1" then "0" else "1"
       | S _ => Pandas.field sample_table r c
       end |}.

Definition relabelled_env : env string :=
  {| uuid4_hex := uuid4_hex sample_env;
     datetime_now := datetime_now sample_env;
     region_name := region_name sample_env;
     default_bucket := default_bucket sample_env;
     execution_role := execution_role sample_env;
     glue_role_arn_of := glue_role_arn_of sample_env;
     uploaded_uri := uploaded_uri sample_env;
     image_uri_of := image_uri_of sample_env;
     RunId_of := RunId_of sample_env;
     Run_Status := Run_Status sample_env;
     test_csv_unreadable := test_csv_unreadable sample_env;
     test_csv := relabelled_table;
     endpoint_Body := endpoint_Body sample_env |}.

(** Another session set up in the same minute: its own id, a later second. *)
Definition second_session_env : env string :=
  {| uuid4_hex := "fedcba9876543210fedcba9876543210";
     datetime_now :=
       {| year := 2021; month := 7; day := 4;
          hour := 9; minute := 5; second := 59; microsecond := 0 |};
     region_name := region_name sample_env;
     default_bucket := default_bucket sample_env;
     execution_role := execution_role sample_env;
     glue_role_arn_of := glue_role_arn_of sample_env;
     uploaded_uri := uploaded_uri sample_env;
     image_uri_of := image_uri_of sample_env;
     RunId_of := λ _, "wr_2";
     Run_Status := Run_Status sample_env;
     test_csv_unreadable := test_csv_unreadable sample_env;
     test_csv := test_csv sample_env;
     endpoint_Body := endpoint_Body sample_env |}.

(** A stand-in for [float]: a prediction is kept as the text it was
    written in, and only "0.9"-like texts (digits and one dot) convert. *)
Definition is_digit (c : Ascii.ascii) : bool :=
  let n := Ascii.nat_of_ascii c in ((48 <=? n) && (n <=? 57))%nat.

Fixpoint digits_and_dots (s : string) : bool * nat :=
  match s with
  | "" => (true, 0)
  | String c s' =>
      let '(ok, dots) := digits_and_dots s' in
      if Ascii.eqb c "."%char then (ok, S dots) else (ok && is_digit c, dots)
  end.

Definition sample_float (s : string) : option string :=
  let '(ok, dots) := digits_and_dots s in
  if ok && (dots <=? 1)%nat && (1 <=? String.length s - dots)%nat then Some s else None.

(** ** The logs the cells are expected to leave *)

Section Traces.
Context {cell : Type} (cell_str : cell → string).
Context {float : Type} (float_of_str : string → option float).
Context (E : env cell).

(** The calls are in the order of the notebook's five parts. *)
Definition in_order (log : list call) : Prop :=
  ∀ i j c d, log !! i = Some c → log !! j = Some d →
    rank (phase_of c) < rank (phase_of d) → i < j.

Definition glue_role_arn : string :=
  glue_role_arn_of E Notebook.glue_role_name (Notebook.bucket E).

Definition scripts_uri : string :=
  "s3://" +:+ Notebook.bucket E +:+ "/" +:+ Notebook.prefix +:+ "/glue/scripts".

Definition data_processing_script_path : string :=
  uploaded_uri E "./code/glue_preprocessing.py" scripts_uri.

Definition model_training_deployment_script_path : string :=
  uploaded_uri E "./code/model_training_deployment.py" scripts_uri.

Definition first_job : job :=
  Notebook.data_processing_job E glue_role_arn data_processing_script_path.

Definition second_job : job :=
  Notebook.model_training_deployment_job E glue_role_arn
    model_training_deployment_script_path.

Definition provision_trace : list call :=
  [ CreateGlueRole Notebook.glue_role_name (Notebook.bucket E);
    PutObject "../data/churn_processed.csv" (Notebook.raw_data E);
    CreateWorkflow (Notebook.glue_workflow_name E)
      "AWS Glue workflow to process data and create training jobs";
    PutObject "./code/glue_preprocessing.py" scripts_uri;
    CreateJob first_job;
    PutObject "./code/model_training_deployment.py" scripts_uri;
    CreateJob second_job;
    CreateTrigger (Notebook.data_processing_trigger E);
    CreateTrigger (Notebook.model_train_deploy_trigger E) ].

Definition RunId : string := RunId_of E (Notebook.glue_workflow_name E).

Definition start_trace : list call :=
  [ StartWorkflowRun (Notebook.glue_workflow_name E);
    Stdout "Checking workflow state:" ].

Definition poll : call := GetWorkflowRun (Notebook.glue_workflow_name E) RunId true.

(** An iteration that goes round again, and the one that leaves. *)
Definition busy_trace : list call := [ poll; Stdout "."; Sleep 30 ].

Definition final_trace (status : string) : list call := [ poll; Stdout status ].

Definition terminal (status : string) : bool :=
  Py.contains ["COMPLETED"; "STOPPED"; "ERROR"] status.

(** The columns sent to the endpoint, and the request body made of them. *)
Definition features : Pandas.DataFrame cell :=
  {| Pandas.columns := drop 1 (Pandas.columns (Notebook.df E));
     Pandas.index := Pandas.index (Notebook.df E);
     Pandas.at_ := Pandas.at_ (Notebook.df E) |}.

Definition payload : Py.bytes :=
  Py.encode (Pandas.to_csv cell_str false false features).

Definition evaluate_trace : list call :=
  [ GetObject (Notebook.test_data E +:+ Notebook.test_data_file) "data";
    InvokeEndpoint (Notebook.endpoint_name E) "text/csv" payload ].

(** What the endpoint answers to that request, and what the notebook
    makes of the answer. *)
Definition response_Body : Py.bytes :=
  endpoint_Body E (Notebook.endpoint_name E) payload.

Definition parsed : result (list float) :=
  match Py.decode response_Body with
  | None => Raise UnicodeDecodeError
  | Some text =>
      match mapM float_of_str (Py.split ","%char text) with
      | None => Raise ValueError
      | Some predictions => Ok predictions
      end
  end.

Definition clean_up_trace : list call :=
  [ DeleteJob (Notebook.data_processing_job_name E);
    DeleteJob (Notebook.model_training_deployment_job_name E);
    DeleteTrigger (Notebook.data_processing_trigger_name E);
    DeleteTrigger (Notebook.model_train_deploy_trigger_name E);
    DeleteWorkflow (Notebook.glue_workflow_name E);
    DeleteEndpoint (Notebook.endpoint_name E) ].

(** The log of a session whose workflow run is seen to end at poll [n]. *)
Definition polling_trace (n : nat) : list call :=
  concat (replicate n busy_trace) ++ final_trace (Run_Status E n).

(** What the evaluation cells make of the test file and the answer, and
    the calls they leave: a test file that cannot be read stops the run
    before the invocation, a number of predictions other than the number of
    rows stops it after. *)
Definition evaluated : result (list float) :=
  match Pandas.read_csv (test_csv_unreadable E) (test_csv E) with
  | inl e => Raise e
  | inr _ =>
      match parsed with
      | Ok predictions =>
          if Pandas.height (test_csv E) =? length predictions
          then Ok predictions else Raise ValueError
      | other => other
      end
  end.

Definition evaluation_log : list call :=
  match Pandas.read_csv (test_csv_unreadable E) (test_csv E) with
  | inl _ => take 1 evaluate_trace
  | inr _ => evaluate_trace
  end.

Definition session_trace (n : nat) : list call :=
  provision_trace ++ start_trace ++ polling_trace n ++ evaluation_log
  ++ match evaluated with Ok _ => clean_up_trace | _ => [] end.

(** The log of a run from an empty log, whatever its outcome. *)
Definition log_of (fuel : nat) : list call :=
  (Notebook.notebook cell_str float_of_str E fuel []).2.

(** The first [n] polls see a run in progress. *)
Definition in_progress (n : nat) : Prop :=
  ∀ i, i < n → terminal (Run_Status E i) = false.

End Traces.

(** ** More readers of a log *)

Definition uploads (log : list call) : list (string * string) :=
  omap (λ c, match c with PutObject l u => Some (l, u) | _ => None end) log.

Definition downloads (log : list call) : list (string * string) :=
  omap (λ c, match c with GetObject u l => Some (u, l) | _ => None end) log.

Definition created_roles (log : list call) : list (string * string) :=
  omap (λ c, match c with CreateGlueRole n b => Some (n, b) | _ => None end) log.

Definition printed (log : list call) : list string :=
  omap (λ c, match c with Stdout line => Some line | _ => None end) log.

(** The seconds a log spends in [time.sleep]. *)
Definition slept (log : list call) : nat :=
  sum_list (omap (λ c, match c with Sleep s => Some s | _ => None end) log).

(** The values a trigger passes to its jobs under an argument name. *)
Definition trigger_argument (key : string) (t : trigger) : list string :=
  omap (λ a, act_Arguments a !! key) (trg_Actions t).

(** [c in s] and [s.count(c)] for a character [c]. *)
Fixpoint occurs (c : Ascii.ascii) (s : string) : bool :=
  match s with
  | "" => false
  | String c' s' => Ascii.eqb c' c || occurs c s'
  end.

Fixpoint count (c : Ascii.ascii) (s : string) : nat :=
  match s with
  | "" => 0
  | String c' s' => (if Ascii.eqb c' c then 1 else 0) + count c s'
  end.

(** Every byte is below 128. *)
Definition is_ascii (bs : Py.bytes) : bool :=
  forallb (Py.between 0x00 0x7F) bs.

(** ** More sample sessions *)



(** [b] lies under the S3 location [a]: [a] is a prefix of it. *)
Definition under (a b : string) : Prop := ∃ rest, b = a +:+ rest.

(** The workflow a call names, when it names one. *)
Definition workflow_named (c : call) : option string :=
  match c with
  | CreateWorkflow n _ | StartWorkflowRun n | GetWorkflowRun n _ _
  | DeleteWorkflow n => Some n
  | CreateTrigger t => Some (trg_WorkflowName t)
  | _ => None
  end.

(** The five Glue names of a session. *)
Definition glue_names {cell : Type} (E : env cell) : list string :=
  [ Notebook.glue_workflow_name E;
    Notebook.data_processing_job_name E;
    Notebook.model_training_deployment_job_name E;
    Notebook.data_processing_trigger_name E;
    Notebook.model_train_deploy_trigger_name E ].

(** The sample session with an endpoint that answers three predictions
    for the two rows of the test file. *)
Definition miscounted_env : env string :=
  {| uuid4_hex := uuid4_hex sample_env;
     datetime_now := datetime_now sample_env;
     region_name := region_name sample_env;
     default_bucket := default_bucket sample_env;
     execution_role := execution_role sample_env;
     glue_role_arn_of := glue_role_arn_of sample_env;
     uploaded_uri := uploaded_uri sample_env;
     image_uri_of := image_uri_of sample_env;
     RunId_of := RunId_of sample_env;
     Run_Status := Run_Status sample_env;
     test_csv_unreadable := test_csv_unreadable sample_env;
     test_csv := test_csv sample_env;
     endpoint_Body := λ _ _, Py.encode "0.9,0.1,0.5" |}.

(** The sample session with a test file that has no line. *)
Definition empty_table : Pandas.csv_table string :=
  {| Pandas.width := 0; Pandas.height := 0; Pandas.field := λ _ _, "nan" |}.

Definition empty_file_env : env string :=
  {| uuid4_hex := uuid4_hex sample_env;
     datetime_now := datetime_now sample_env;
     region_name := region_name sample_env;
     default_bucket := default_bucket sample_env;
     execution_role := execution_role sample_env;
     glue_role_arn_of := glue_role_arn_of sample_env;
     uploaded_uri := uploaded_uri sample_env;
     image_uri_of := image_uri_of sample_env;
     RunId_of := RunId_of sample_env;
     Run_Status := Run_Status sample_env;
     test_csv_unreadable := test_csv_unreadable sample_env;
     test_csv := empty_table;
     endpoint_Body := endpoint_Body sample_env |}.

(** The sample session with a workflow run that is in ERROR at the first
    poll and has left no test file to download. *)
Definition missing_file_env : env string :=
  {| uuid4_hex := uuid4_hex sample_env;
     datetime_now := datetime_now sample_env;
     region_name := region_name sample_env;
     default_bucket := default_bucket sample_env;
     execution_role := execution_role sample_env;
     glue_role_arn_of := glue_role_arn_of sample_env;
     uploaded_uri := uploaded_uri sample_env;
     image_uri_of := image_uri_of sample_env;
     RunId_of := RunId_of sample_env;
     Run_Status := λ _, "ERROR";
     test_csv_unreadable := Some Pandas.NoFile;
     test_csv := test_csv sample_env;
     endpoint_Body := endpoint_Body sample_env |}.

(** * Properties *)

(** ** The built-ins and the frame operations on examples *)

Example split_three : Py.split ","%char "0.1,0.9,0.5" = ["0.1"; "0.9"; "0.5"].
Proof. reflexivity. Qed.

Example split_trailing : Py.split ","%char "a," = ["a"; ""].
Proof. reflexivity. Qed.

Example split_empty : Py.split ","%char "" = [""].
Proof. reflexivity. Qed.

Example join_three : Py.join "," ["1"; "2"; "3"] = "1,2,3".
Proof. reflexivity. Qed.

Example str_7 : Py.str 7 = "7".
Proof. reflexivity. Qed.

Example decode_ascii : Py.decode (Py.encode "0.25,0.75") = Some "0.25,0.75".
Proof. reflexivity. Qed.

Example decode_lone_continuation : Py.decode [Byte.x80] = None.
Proof. reflexivity. Qed.

Example to_csv_sample :
  Pandas.to_csv (λ s, s) false false (Pandas.frame_of sample_table)
  = "1,0.5,7" +:+ Py.LF +:+ "0,0.25,9" +:+ Py.LF.
Proof. reflexivity. Qed.

Example to_csv_sample_labelled :
  Pandas.to_csv (λ s, s) true true (Pandas.frame_of sample_table)
  = ",0,1,2" +:+ Py.LF +:+ "0,1,0.5,7" +:+ Py.LF +:+ "1,0,0.25,9" +:+ Py.LF.
Proof. reflexivity. Qed.

(** ** The monad and the cells *)

Section Cells.
Context {cell : Type} (cell_str : cell → string).
Context {float : Type} (float_of_str : string → option float).
Context (E : env cell).

Lemma bind_unfold {A B} (m : M A) (f : A → M B) log :
  (m ≫= f) log =
  match m log with
  | (Ok a, log') => f a log'
  | (Raise e, log') => (Raise e, log')
  | (OutOfFuel, log') => (OutOfFuel, log')
  end.
Proof. reflexivity. Qed.

Lemma bind_ok {A B} (m : M A) (f : A → M B) log a log' :
  m log = (Ok a, log') → (m ≫= f) log = f a log'.
Proof. intros H. rewrite bind_unfold, H. reflexivity. Qed.

Lemma provision_run log :
  Notebook.provision E log = (Ok (), log ++ provision_trace E).
Proof.
  cbv [Notebook.provision Notebook.cell_glue_role Notebook.cell_upload_data
       Notebook.cell_create_workflow Notebook.cell_data_processing_job
       Notebook.cell_model_training_deployment_job
       Notebook.cell_data_processing_trigger
       Notebook.cell_model_train_deploy_trigger
       Notebook.create_glue_role Notebook.S3Uploader_upload
       Notebook.create_workflow Notebook.create_job Notebook.create_trigger
       mbind M_bind mret M_ret invoke].
  rewrite <- !app_assoc. reflexivity.
Qed.

Lemma polls_made_app l1 l2 : polls_made (l1 ++ l2) = polls_made l1 + polls_made l2.
Proof. unfold polls_made. rewrite List.filter_app, length_app. reflexivity. Qed.

Lemma poll_loop_step fuel rid log :
  Notebook.poll_loop E (S fuel) rid log =
  let status := Run_Status E (polls_made log) in
  let request := GetWorkflowRun (Notebook.glue_workflow_name E) rid true in
  if terminal status
  then (Ok (), log ++ [request; Stdout status])
  else Notebook.poll_loop E fuel rid (log ++ [request; Stdout "."; Sleep 30]).
Proof.
  cbn [Notebook.poll_loop].
  cbv [Notebook.check_workflow_state Notebook.get_workflow_run history
       Notebook.print Notebook.time_sleep mbind M_bind mret M_ret invoke terminal].
  destruct (Py.contains _ _); rewrite <- !app_assoc; reflexivity.
Qed.

Lemma poll_loop_cases fuel : ∀ log,
  (∃ n, n < fuel
     ∧ (∀ i, i < n → terminal (Run_Status E (polls_made log + i)) = false)
     ∧ terminal (Run_Status E (polls_made log + n)) = true
     ∧ Notebook.poll_loop E fuel (RunId E) log
       = (Ok (), log ++ concat (replicate n (busy_trace E))
                    ++ final_trace E (Run_Status E (polls_made log + n))))
  ∨ ((∀ i, i < fuel → terminal (Run_Status E (polls_made log + i)) = false)
     ∧ Notebook.poll_loop E fuel (RunId E) log
       = (OutOfFuel, log ++ concat (replicate fuel (busy_trace E)))).
Proof.
  induction fuel as [|fuel IH]; intros log.
  - right. split; [lia|]. cbn. rewrite app_nil_r. reflexivity.
  - rewrite poll_loop_step. cbv zeta.
    destruct (terminal (Run_Status E (polls_made log))) eqn:Hnow.
    + left. exists 0. rewrite Nat.add_0_r. repeat split; [lia | lia | exact Hnow].
    + assert (Hshift : ∀ i, polls_made (log ++ busy_trace E) + i = polls_made log + S i).
      { intros i. rewrite polls_made_app. change (polls_made (busy_trace E)) with 1. lia. }
      destruct (IH (log ++ busy_trace E)) as [(n & Hn & Hbusy & Hend & Hrun)|[Hbusy Hrun]].
      * left. exists (S n). rewrite Hshift in Hend, Hrun.
        repeat split; [lia | | exact Hend |].
        -- intros [|i] Hi; [rewrite Nat.add_0_r; exact Hnow|].
           rewrite <- Hshift. apply Hbusy. lia.
        -- fold (poll E) (busy_trace E). rewrite Hrun. cbn [replicate concat].
           rewrite <- !app_assoc. reflexivity.
      * right. split.
        -- intros [|i] Hi; [rewrite Nat.add_0_r; exact Hnow|].
           rewrite <- Hshift. apply Hbusy. lia.
        -- fold (poll E) (busy_trace E). rewrite Hrun. cbn [replicate concat].
           rewrite <- !app_assoc. reflexivity.
Qed.

Lemma forallb_elem_of (l k : list nat) :
  (∀ x, x ∈ k → x ∈ l) → forallb (λ x, bool_decide (x ∈ l)) k = true.
Proof.
  induction k as [|x k IH]; intros Hsub; [reflexivity|].
  cbn. rewrite bool_decide_eq_true_2 by (apply Hsub; left).
  apply IH. intros y Hy. apply Hsub. right. exact Hy.
Qed.

Lemma getitem_features :
  Pandas.getitem (Notebook.df E) (drop 1 (Pandas.columns (Notebook.df E)))
  = Some (features E).
Proof.
  unfold Pandas.getitem. rewrite forallb_elem_of; [reflexivity|].
  intros x Hx. destruct (Pandas.columns (Notebook.df E)); [exact Hx|].
  right. exact Hx.
Qed.

Lemma read_csv_frame d :
  Pandas.read_csv (test_csv_unreadable E) (test_csv E) = inr d →
  d = Notebook.df E ∧ Pandas.is_empty (test_csv E) = false.
Proof.
  unfold Pandas.read_csv.
  destruct (test_csv_unreadable E) as [[| |]|]; try discriminate.
  destruct (Pandas.is_empty (test_csv E)); [discriminate|].
  intros [= <-]. split; reflexivity.
Qed.

Lemma getcolumn_actuals :
  Pandas.is_empty (test_csv E) = false →
  ∃ actuals, Pandas.getcolumn (Notebook.df E) 0 = Some actuals
    ∧ length actuals = Pandas.height (test_csv E).
Proof.
  intros Hfile. unfold Pandas.is_empty in Hfile.
  apply orb_false_elim in Hfile as [Hw _]. apply Nat.eqb_neq in Hw.
  unfold Pandas.getcolumn. rewrite bool_decide_eq_true_2.
  - eexists. split; [reflexivity|].
    unfold Pandas.series. rewrite length_map. apply length_seq.
  - apply list_elem_of_In, in_seq. lia.
Qed.

Lemma cell_invoke_run log :
  Notebook.cell_invoke cell_str float_of_str E (Notebook.df E) log
  = (parsed cell_str float_of_str E,
     log ++ [InvokeEndpoint (Notebook.endpoint_name E) "text/csv" (payload cell_str E)]).
Proof.
  cbv [Notebook.cell_invoke Notebook.invoke_endpoint mbind M_bind mret M_ret invoke].
  rewrite getitem_features. cbv [or_raise mret M_ret parsed response_Body payload].
  destruct (Py.decode _) as [text|]; cbv [raise];
    [destruct (mapM _ _)|]; reflexivity.
Qed.

Lemma evaluate_run log :
  Notebook.evaluate cell_str float_of_str E log
  = (evaluated cell_str float_of_str E, log ++ evaluation_log cell_str E).
Proof.
  unfold Notebook.evaluate, evaluated, evaluation_log.
  rewrite (bind_ok (Notebook.cell_download E) _ log ()
             (log ++ [GetObject (Notebook.test_data E +:+ Notebook.test_data_file)
                        "data"]) eq_refl).
  rewrite bind_unfold. unfold Notebook.cell_read_csv.
  destruct (Pandas.read_csv _ _) as [e|d] eqn:Hread; [reflexivity|].
  apply read_csv_frame in Hread as [-> Hfile].
  cbn [mret M_ret]. cbv beta iota.
  rewrite bind_unfold, cell_invoke_run.
  destruct (parsed cell_str float_of_str E) as [predictions| |]; cbv beta iota;
    [|rewrite <- app_assoc; reflexivity..].
  rewrite bind_unfold. unfold Notebook.cell_crosstab. rewrite bind_unfold.
  destruct (getcolumn_actuals Hfile) as (actuals & Hcolumn & Hrows).
  rewrite Hcolumn. cbn [or_raise mret M_ret]. cbv beta iota. rewrite Hrows.
  destruct (Pandas.height (test_csv E) =? length predictions);
    cbv [mret M_ret raise]; rewrite <- app_assoc; reflexivity.
Qed.

Lemma evaluated_ok predictions :
  evaluated cell_str float_of_str E = Ok predictions →
  Pandas.read_csv (test_csv_unreadable E) (test_csv E) = inr (Notebook.df E)
  ∧ parsed cell_str float_of_str E = Ok predictions
  ∧ length predictions = Pandas.height (test_csv E).
Proof.
  unfold evaluated.
  destruct (Pandas.read_csv _ _) as [e|d] eqn:Hread; [discriminate|].
  apply read_csv_frame in Hread as [-> _].
  destruct (parsed cell_str float_of_str E) as [p| |]; try discriminate.
  destruct (Pandas.height (test_csv E) =? length p) eqn:Hrows; [|discriminate].
  intros [= <-]. apply Nat.eqb_eq in Hrows. auto.
Qed.

Lemma evaluated_ends : evaluated cell_str float_of_str E ≠ OutOfFuel.
Proof.
  unfold evaluated, parsed.
  destruct (Pandas.read_csv _ _); [discriminate|].
  destruct (Py.decode _); [destruct (mapM _ _)|]; try discriminate.
  destruct (_ =? _); discriminate.
Qed.

(** The evaluation cells leave the download alone or the download and the
    invocation. *)
Lemma evaluation_log_cases :
  evaluation_log cell_str E = take 1 (evaluate_trace cell_str E)
  ∨ evaluation_log cell_str E = evaluate_trace cell_str E.
Proof. unfold evaluation_log. destruct (Pandas.read_csv _ _); auto. Qed.

Lemma Forall_evaluation_log (P : call → Prop) :
  Forall P (evaluate_trace cell_str E) → Forall P (evaluation_log cell_str E).
Proof.
  intros HP. destruct evaluation_log_cases as [-> | ->]; [|exact HP].
  apply Forall_take, HP.
Qed.

Lemma clean_up_run log :
  Notebook.clean_up E log = (Ok (), log ++ clean_up_trace E).
Proof.
  cbv [Notebook.clean_up Notebook.cell_clean_up_glue Notebook.cell_clean_up_endpoint
       for_each Notebook.delete_job Notebook.delete_trigger Notebook.delete_workflow
       Notebook.delete_endpoint mbind M_bind mret M_ret invoke].
  rewrite <- !app_assoc. reflexivity.
Qed.

Lemma run_workflow_unfold fuel log :
  Notebook.run_workflow E fuel log
  = Notebook.poll_loop E fuel (RunId E) (log ++ start_trace E).
Proof.
  cbv [Notebook.run_workflow Notebook.cell_start_workflow_run Notebook.cell_poll
       Notebook.start_workflow_run Notebook.print mbind M_bind mret M_ret invoke].
  rewrite <- !app_assoc. reflexivity.
Qed.

(** Every run of the notebook is of one of two kinds: the loop is still
    going round when the fuel is spent, or some poll [n] is the first to
    see a terminal status and the rest of the notebook follows. *)
Lemma notebook_cases fuel :
  (∃ n, n < fuel ∧ in_progress E n ∧ terminal (Run_Status E n) = true
     ∧ Notebook.notebook cell_str float_of_str E fuel []
       = (evaluated cell_str float_of_str E, session_trace cell_str float_of_str E n))
  ∨ (in_progress E fuel
     ∧ Notebook.notebook cell_str float_of_str E fuel []
       = (OutOfFuel,
          provision_trace E ++ start_trace E ++ concat (replicate fuel (busy_trace E)))).
Proof.
  unfold Notebook.notebook.
  rewrite (bind_ok _ _ _ _ _ (provision_run [])).
  rewrite bind_unfold, run_workflow_unfold. cbn [app].
  destruct (poll_loop_cases fuel (provision_trace E ++ start_trace E))
    as [(n & Hn & Hbusy & Hend & Hrun)|[Hbusy Hrun]];
    change (polls_made (provision_trace E ++ start_trace E)) with 0 in *;
    cbn [Nat.add] in *; rewrite Hrun.
  - left. exists n. repeat split; [exact Hn | exact Hbusy | exact Hend |].
    rewrite bind_unfold, evaluate_run. unfold session_trace, polling_trace.
    destruct (evaluated cell_str float_of_str E) as [predictions| |].
    + rewrite bind_unfold, clean_up_run. cbn [mret M_ret].
      cbn [app]. rewrite <- !app_assoc. reflexivity.
    + cbn [app]. rewrite <- !app_assoc, app_nil_r. reflexivity.
    + cbn [app]. rewrite <- !app_assoc, app_nil_r. reflexivity.
  - right. split; [exact Hbusy|]. cbn [app]. rewrite <- !app_assoc. reflexivity.
Qed.

(** *** Reading the logs the notebook leaves *)

Lemma omap_rounds {A} (f : call → option A) (l : list call) n :
  omap f l = [] → omap f (concat (replicate n l)) = [].
Proof.
  intros Hl. induction n as [|n IH]; [reflexivity|].
  cbn [replicate concat]. rewrite omap_app, Hl, IH. reflexivity.
Qed.

Lemma Forall_rounds (P : call → Prop) (l : list call) n :
  Forall P l → Forall P (concat (replicate n l)).
Proof.
  intros Hl. induction n as [|n IH]; [constructor|].
  cbn [replicate concat]. apply Forall_app. split; assumption.
Qed.

Lemma polls_made_rounds n : polls_made (concat (replicate n (busy_trace E))) = n.
Proof.
  induction n as [|n IH]; [reflexivity|].
  cbn [replicate concat]. rewrite polls_made_app, IH. reflexivity.
Qed.

Lemma length_rounds n : length (concat (replicate n (busy_trace E))) = 3 * n.
Proof.
  induction n as [|n IH]; [reflexivity|].
  cbn [replicate concat]. rewrite length_app, IH. cbn [busy_trace length]. lia.
Qed.

Lemma log_of_cases fuel :
  (∃ n, n < fuel ∧ in_progress E n ∧ terminal (Run_Status E n) = true
     ∧ log_of cell_str float_of_str E fuel = session_trace cell_str float_of_str E n)
  ∨ (in_progress E fuel
     ∧ log_of cell_str float_of_str E fuel
       = provision_trace E ++ start_trace E ++ concat (replicate fuel (busy_trace E))).
Proof.
  unfold log_of.
  destruct (notebook_cases fuel) as [(n & Hn & Hbusy & Hend & Hrun)|[Hbusy Hrun]];
    rewrite Hrun; [left; exists n|right]; auto.
Qed.

(** A property of calls holds all along a log as soon as it holds on the
    pieces a log is made of. *)
Lemma Forall_log_of (P : call → Prop) fuel :
  Forall P (provision_trace E) → Forall P (start_trace E) →
  Forall P (busy_trace E) →
  (∀ status, terminal status = true → Forall P (final_trace E status)) →
  Forall P (evaluate_trace cell_str E) → Forall P (clean_up_trace E) →
  Forall P (log_of cell_str float_of_str E fuel).
Proof.
  intros Hp Hs Hb Hf He Hc.
  destruct (log_of_cases fuel) as [(n & _ & _ & Hend & ->)|[_ ->]].
  - unfold session_trace, polling_trace. rewrite !Forall_app.
    repeat split; auto using Forall_rounds, Forall_evaluation_log.
    destruct (evaluated _ _ _); auto.
  - rewrite !Forall_app. auto using Forall_rounds.
Qed.

(** What an [omap]-reader finds in a log is what it finds in the
    provisioning, evaluation and clean-up parts when the polling part
    holds nothing for it. *)
Lemma omap_log_of {A} (f : call → option A) fuel :
  omap f (start_trace E) = [] → omap f (busy_trace E) = [] →
  (∀ status, omap f (final_trace E status) = []) →
  ∃ rest, omap f (log_of cell_str float_of_str E fuel) = omap f (provision_trace E) ++ rest
    ∧ (rest = []
       ∨ rest = omap f (take 1 (evaluate_trace cell_str E))
       ∨ rest = omap f (evaluate_trace cell_str E)
       ∨ rest = omap f (evaluate_trace cell_str E) ++ omap f (clean_up_trace E)).
Proof.
  intros Hs Hb Hf.
  destruct (log_of_cases fuel) as [(n & _ & _ & _ & ->)|[_ ->]].
  - unfold session_trace, polling_trace.
    rewrite !omap_app, Hs, Hf, (omap_rounds _ _ _ Hb). cbn [app].
    eexists. split; [reflexivity|].
    destruct (evaluated cell_str float_of_str E) as [predictions| |] eqn:Houtcome.
    + apply evaluated_ok in Houtcome as (Hfile & _ & _).
      unfold evaluation_log. rewrite Hfile. right; right; right. reflexivity.
    + rewrite app_nil_r.
      destruct evaluation_log_cases as [-> | ->]; [right; left | right; right; left];
        reflexivity.
    + contradiction (evaluated_ends Houtcome).
  - rewrite !omap_app, Hs, (omap_rounds _ _ _ Hb). eexists. split; [reflexivity|].
    left. reflexivity.
Qed.

Ltac read_log :=
  lazymatch goal with
  | |- omap ?f (log_of _ _ _ ?fuel) = _ =>
      let rest := fresh "rest" in
      let Hlog := fresh "Hlog" in
      let Hrest := fresh "Hrest" in
      edestruct (omap_log_of f fuel) as (rest & Hlog & Hrest);
      [ reflexivity | reflexivity | intros; reflexivity | ];
      rewrite Hlog; destruct Hrest as [->|[->|[->| ->]]]; reflexivity
  end.

Lemma created_in_log fuel :
  created_workflows (log_of cell_str float_of_str E fuel) = [Notebook.glue_workflow_name E]
  ∧ created_jobs (log_of cell_str float_of_str E fuel) = [first_job E; second_job E]
  ∧ created_triggers (log_of cell_str float_of_str E fuel)
    = [Notebook.data_processing_trigger E; Notebook.model_train_deploy_trigger E].
Proof.
  unfold created_workflows, created_jobs, created_triggers.
  repeat split; read_log.
Qed.

(** ** The job graph *)

(** C1: whatever the outcome of a run, its log holds one workflow, two
    jobs and two triggers of that workflow.  The first trigger is
    ON_DEMAND, has no predicate, and its one action starts the job that
    runs the preprocessing script.  The second is CONDITIONAL on the one
    condition "that job EQUALS SUCCEEDED", and its one action starts the
    job that runs the training and deployment script. *)
Theorem job_graph fuel :
  let log := log_of cell_str float_of_str E fuel in
  ∃ job_a job_b trigger_a trigger_b,
    created_workflows log = [Notebook.glue_workflow_name E]
    ∧ created_jobs log = [job_a; job_b]
    ∧ created_triggers log = [trigger_a; trigger_b]
    ∧ cmd_ScriptLocation (job_Command job_a)
      = uploaded_uri E "./code/glue_preprocessing.py" (scripts_uri E)
    ∧ cmd_ScriptLocation (job_Command job_b)
      = uploaded_uri E "./code/model_training_deployment.py" (scripts_uri E)
    ∧ trg_WorkflowName trigger_a = Notebook.glue_workflow_name E
    ∧ trg_WorkflowName trigger_b = Notebook.glue_workflow_name E
    ∧ trg_Type trigger_a = "ON_DEMAND"
    ∧ trg_Predicate trigger_a = None
    ∧ map act_JobName (trg_Actions trigger_a) = [job_Name job_a]
    ∧ trg_Type trigger_b = "CONDITIONAL"
    ∧ trg_Predicate trigger_b
      = Some {| pred_Conditions :=
                  [ {| cond_LogicalOperator := "EQUALS";
                       cond_JobName := job_Name job_a;
                       cond_State := "SUCCEEDED" |} ] |}
    ∧ map act_JobName (trg_Actions trigger_b) = [job_Name job_b].
Proof.
  intros log. destruct (created_in_log fuel) as (Hw & Hj & Ht).
  exists (first_job E), (second_job E),
    (Notebook.data_processing_trigger E), (Notebook.model_train_deploy_trigger E).
  repeat split; try assumption; reflexivity.
Qed.

(** ** Retries *)

(** C4: both jobs a run creates are created with MaxRetries = 0. *)
Theorem zero_retries fuel :
  let jobs := created_jobs (log_of cell_str float_of_str E fuel) in
  length jobs = 2 ∧ Forall (λ j, job_MaxRetries j = 0) jobs.
Proof.
  intros jobs. subst jobs. destruct (created_in_log fuel) as (_ & -> & _).
  split; [reflexivity|]. repeat constructor.
Qed.

(** ** The polling loop *)

Lemma terminal_iff status :
  terminal status = true
  ↔ status = "COMPLETED" ∨ status = "STOPPED" ∨ status = "ERROR".
Proof.
  unfold terminal, Py.contains. rewrite bool_decide_eq_true, !elem_of_cons.
  split; [intros [?|[?|[?|Hnil]]]; auto; inversion Hnil | intros [?|[?|?]]; auto].
Qed.

(** C2: the loop is entered with the RunId that start_workflow_run
    returned.  Each iteration asks get_workflow_run for the status of that
    run; on COMPLETED, STOPPED or ERROR, and on nothing else, it prints the
    status and the loop is left; otherwise it prints a dot, sleeps 30
    seconds and goes round again.  No log of a run holds a sleep of another
    length or a poll of another run. *)
Theorem polling_iteration :
  (∀ fuel log,
     Notebook.run_workflow E fuel log
     = Notebook.poll_loop E fuel (RunId_of E (Notebook.glue_workflow_name E))
         (log ++ [ StartWorkflowRun (Notebook.glue_workflow_name E);
                   Stdout "Checking workflow state:" ]))
  ∧ (∀ fuel rid log,
       let status := Run_Status E (polls_made log) in
       let request := GetWorkflowRun (Notebook.glue_workflow_name E) rid true in
       Notebook.poll_loop E (S fuel) rid log
       = if terminal status
         then (Ok (), log ++ [request; Stdout status])
         else Notebook.poll_loop E fuel rid (log ++ [request; Stdout "."; Sleep 30]))
  ∧ (∀ status,
       terminal status = true
       ↔ status = "COMPLETED" ∨ status = "STOPPED" ∨ status = "ERROR")
  ∧ (∀ fuel,
       Forall (λ c, match c with
                    | Sleep seconds => seconds = 30
                    | GetWorkflowRun name run_id _ =>
                        name = Notebook.glue_workflow_name E
                        ∧ run_id = RunId_of E (Notebook.glue_workflow_name E)
                    | _ => True
                    end)
         (log_of cell_str float_of_str E fuel)).
Proof.
  split; [|split; [|split]].
  - intros fuel log. apply run_workflow_unfold.
  - intros fuel rid log. apply poll_loop_step.
  - apply terminal_iff.
  - intros fuel. apply Forall_log_of; intros; repeat constructor.
Qed.

Lemma least_true (f : nat → bool) n :
  f n = true → ∃ m, f m = true ∧ ∀ i, i < m → f i = false.
Proof.
  assert (Hscan : ∀ b, (∀ i, i < b → f i = false)
                       ∨ (∃ m, f m = true ∧ ∀ i, i < m → f i = false)).
  { induction b as [|b [Hnone|Hsome]].
    - left. lia.
    - destruct (f b) eqn:Hb.
      + right. exists b. auto.
      + left. intros i Hi. destruct (decide (i = b)) as [->|]; [exact Hb|].
        apply Hnone. lia.
    - right. exact Hsome. }
  intros Hn. destruct (Hscan (S n)) as [Hnone|Hsome]; [|exact Hsome].
  rewrite Hnone in Hn by lia. discriminate.
Qed.

Lemma first_terminal_unique (k n n' : nat) :
  (∀ i, i < n → terminal (Run_Status E (k + i)) = false) →
  terminal (Run_Status E (k + n)) = true →
  (∀ i, i < n' → terminal (Run_Status E (k + i)) = false) →
  terminal (Run_Status E (k + n')) = true →
  n = n'.
Proof.
  intros Hb He Hb' He'.
  destruct (Nat.lt_trichotomy n n') as [Hlt|[Heq|Hgt]]; [|exact Heq|].
  - rewrite (Hb' n Hlt) in He. discriminate.
  - rewrite (Hb n' Hgt) in He'. discriminate.
Qed.

(** C3: the loop returns, given enough fuel, exactly when some poll is
    answered with a terminal status; fuel beyond that changes nothing; and
    when no poll is ever answered with a terminal status the loop is still
    going round after any number of iterations, which is then the number of
    polls it has made.  The loop has no other way out: it never raises.
    The same holds of the notebook as a whole, which
    gets past the loop exactly when some poll is answered with a terminal
    status. *)
Theorem polling_termination log :
  let k := polls_made log in
  ((∃ fuel log', Notebook.poll_loop E fuel (RunId E) log = (Ok (), log'))
   ↔ (∃ n, terminal (Run_Status E (k + n)) = true))
  ∧ (∀ fuel fuel' log',
       Notebook.poll_loop E fuel (RunId E) log = (Ok (), log') → (fuel ≤ fuel')%nat →
       Notebook.poll_loop E fuel' (RunId E) log = (Ok (), log'))
  ∧ ((∀ n, terminal (Run_Status E (k + n)) = false) →
     ∀ fuel,
       Notebook.poll_loop E fuel (RunId E) log
       = (OutOfFuel, log ++ concat (replicate fuel (busy_trace E)))
       ∧ polls_made (Notebook.poll_loop E fuel (RunId E) log).2 = k + fuel)
  ∧ (∀ fuel e log', Notebook.poll_loop E fuel (RunId E) log ≠ (Raise e, log'))
  ∧ ((∃ fuel, (Notebook.notebook cell_str float_of_str E fuel []).1 ≠ OutOfFuel)
     ↔ (∃ n, terminal (Run_Status E n) = true)).
Proof.
  intros k. subst k. split; [|split; [|split; [|split]]].
  - split.
    + intros (fuel & log' & Hrun).
      destruct (poll_loop_cases fuel log) as [(n & _ & _ & Hend & _)|[_ Hout]].
      * exists n. exact Hend.
      * rewrite Hout in Hrun. discriminate.
    + intros (n & Hend).
      destruct (least_true (λ i, terminal (Run_Status E (polls_made log + i))) n Hend)
        as (m & Hm & Hbefore).
      exists (S m).
      destruct (poll_loop_cases (S m) log) as [(n' & _ & _ & _ & Hrun)|[Hbusy _]].
      * eexists. exact Hrun.
      * rewrite (Hbusy m) in Hm by lia. discriminate.
  - intros fuel fuel' log' Hrun Hle.
    destruct (poll_loop_cases fuel log) as [(n & Hn & Hb & He & Hr)|[_ Hout]];
      [|rewrite Hout in Hrun; discriminate].
    destruct (poll_loop_cases fuel' log) as [(n' & Hn' & Hb' & He' & Hr')|[Hb' _]].
    + rewrite (first_terminal_unique _ _ _ Hb He Hb' He') in Hr.
      rewrite Hr', <- Hr. exact Hrun.
    + rewrite (Hb' n) in He by lia. discriminate.
  - intros Hnever fuel.
    destruct (poll_loop_cases fuel log) as [(n & _ & _ & He & _)|[_ Hout]].
    + rewrite Hnever in He. discriminate.
    + rewrite Hout. split; [reflexivity|]. cbn [snd].
      rewrite polls_made_app, polls_made_rounds. reflexivity.
  - intros fuel e log'.
    destruct (poll_loop_cases fuel log) as [(n & _ & _ & _ & ->)|[_ ->]]; discriminate.
  - split.
    + intros (fuel & Hrun).
      destruct (notebook_cases fuel) as [(n & _ & _ & He & _)|[_ Hout]].
      * exists n. exact He.
      * rewrite Hout in Hrun. contradiction Hrun. reflexivity.
    + intros (n & Hend).
      destruct (least_true (λ i, terminal (Run_Status E i)) n Hend)
        as (m & Hm & Hbefore).
      exists (S m).
      destruct (notebook_cases (S m)) as [(n' & _ & _ & _ & Hrun)|[Hbusy _]].
      * rewrite Hrun. cbn [fst]. apply evaluated_ends.
      * rewrite (Hbusy m) in Hm by (unfold in_progress; lia). discriminate.
Qed.

(** ** The order of the calls *)

Lemma in_order_flat p l : Forall (λ c, phase_of c = p) l → in_order l.
Proof.
  intros Hl i j c d Hc Hd Hlt.
  rewrite (Forall_lookup_1 _ _ _ _ Hl Hc), (Forall_lookup_1 _ _ _ _ Hl Hd) in Hlt. lia.
Qed.

Lemma in_order_app k l1 l2 :
  in_order l1 → in_order l2 →
  Forall (λ c, rank (phase_of c) ≤ k) l1 → Forall (λ c, k ≤ rank (phase_of c)) l2 →
  in_order (l1 ++ l2).
Proof.
  intros H1 H2 Hlow Hhigh i j c d Hc Hd Hlt.
  apply lookup_app_Some in Hc as [Hc|[Hi Hc]];
    apply lookup_app_Some in Hd as [Hd|[Hj Hd]].
  - exact (H1 _ _ _ _ Hc Hd Hlt).
  - apply lookup_lt_Some in Hc. lia.
  - pose proof (Forall_lookup_1 _ _ _ _ Hhigh Hc).
    pose proof (Forall_lookup_1 _ _ _ _ Hlow Hd). cbn in *. lia.
  - pose proof (H2 _ _ _ _ Hc Hd Hlt). lia.
Qed.

Lemma in_order_parts l0 l1 l2 l3 l4 :
  Forall (λ c, phase_of c = Provisioning) l0 →
  Forall (λ c, phase_of c = Starting) l1 →
  Forall (λ c, phase_of c = Polling) l2 →
  Forall (λ c, phase_of c = Evaluating) l3 →
  Forall (λ c, phase_of c = CleaningUp) l4 →
  in_order (l0 ++ l1 ++ l2 ++ l3 ++ l4).
Proof.
  intros H0 H1 H2 H3 H4.
  assert (Hbound : ∀ p (P : nat → Prop) l,
             Forall (λ c, phase_of c = p) l → P (rank p) →
             Forall (λ c, P (rank (phase_of c))) l).
  { intros p P l Hl Hp. eapply Forall_impl; [exact Hl|]. cbn. intros c ->. exact Hp. }
  apply (in_order_app 0); [eapply in_order_flat; eassumption | |
    apply (Hbound _ (λ r, r ≤ 0) _ H0); cbn; lia |
    rewrite !Forall_app; repeat split;
      [apply (Hbound _ (λ r, 0 ≤ r) _ H1) | apply (Hbound _ (λ r, 0 ≤ r) _ H2)
      |apply (Hbound _ (λ r, 0 ≤ r) _ H3) | apply (Hbound _ (λ r, 0 ≤ r) _ H4)];
      cbn; lia].
  apply (in_order_app 1); [eapply in_order_flat; eassumption | |
    apply (Hbound _ (λ r, r ≤ 1) _ H1); cbn; lia |
    rewrite !Forall_app; repeat split;
      [apply (Hbound _ (λ r, 1 ≤ r) _ H2)
      |apply (Hbound _ (λ r, 1 ≤ r) _ H3) | apply (Hbound _ (λ r, 1 ≤ r) _ H4)];
      cbn; lia].
  apply (in_order_app 2); [eapply in_order_flat; eassumption | |
    apply (Hbound _ (λ r, r ≤ 2) _ H2); cbn; lia |
    rewrite !Forall_app; repeat split;
      [apply (Hbound _ (λ r, 2 ≤ r) _ H3) | apply (Hbound _ (λ r, 2 ≤ r) _ H4)];
      cbn; lia].
  apply (in_order_app 3); [eapply in_order_flat; eassumption
    | eapply in_order_flat; eassumption
    | apply (Hbound _ (λ r, r ≤ 3) _ H3); cbn; lia
    | apply (Hbound _ (λ r, 3 ≤ r) _ H4); cbn; lia].
Qed.

Lemma in_order_log fuel : in_order (log_of cell_str float_of_str E fuel).
Proof.
  destruct (log_of_cases fuel) as [(n & _ & _ & _ & ->)|[_ ->]].
  - unfold session_trace, polling_trace.
    replace (provision_trace E ++ start_trace E
             ++ (concat (replicate n (busy_trace E)) ++ final_trace E (Run_Status E n))
             ++ evaluation_log cell_str E
             ++ match evaluated cell_str float_of_str E with
                | Ok _ => clean_up_trace E
                | _ => []
                end)
      with (provision_trace E ++ [StartWorkflowRun (Notebook.glue_workflow_name E)]
            ++ (Stdout "Checking workflow state:"
                :: concat (replicate n (busy_trace E)) ++ final_trace E (Run_Status E n))
            ++ evaluation_log cell_str E
            ++ match evaluated cell_str float_of_str E with
               | Ok _ => clean_up_trace E
               | _ => []
               end)
      by reflexivity.
    apply in_order_parts; try (repeat constructor; fail).
    + constructor; [reflexivity|]. apply Forall_app. split;
        [apply Forall_rounds|]; repeat constructor.
    + apply Forall_evaluation_log. repeat constructor.
    + destruct (evaluated _ _ _); repeat constructor.
  - replace (provision_trace E ++ start_trace E ++ concat (replicate fuel (busy_trace E)))
      with (provision_trace E ++ [StartWorkflowRun (Notebook.glue_workflow_name E)]
            ++ (Stdout "Checking workflow state:" :: concat (replicate fuel (busy_trace E)))
            ++ [] ++ [])
      by (rewrite !app_nil_r; reflexivity).
    apply in_order_parts; try (repeat constructor; fail).
    constructor; [reflexivity|]. apply Forall_rounds. repeat constructor.
Qed.

Lemma in_order_precedes (P Q : call → bool) log :
  in_order log →
  (∀ c d, P c = true → Q d = true → rank (phase_of c) < rank (phase_of d)) →
  precedes P Q log.
Proof. intros Hlog HPQ i j c d Hc Hd HP HQ. eauto. Qed.

Lemma log_of_provision fuel :
  ∃ rest, log_of cell_str float_of_str E fuel = provision_trace E ++ rest
    ∧ Forall (λ c, 1 ≤ rank (phase_of c)) rest.
Proof.
  destruct (log_of_cases fuel) as [(n & _ & _ & _ & ->)|[_ ->]];
    eexists; (split; [reflexivity|]).
  - unfold polling_trace. rewrite !Forall_app. repeat split.
    + repeat constructor.
    + apply Forall_rounds. repeat constructor.
    + repeat constructor.
    + apply Forall_evaluation_log. repeat constructor.
    + destruct (evaluated _ _ _); repeat constructor.
  - rewrite !Forall_app. split; [|apply Forall_rounds]; repeat constructor.
Qed.

(** C5: in the log of any run, whatever its outcome,
    - a job is created only after the upload whose result is its script
      location;
    - every creation of a workflow, job or trigger comes before the start
      of the workflow run;
    - the start of the run comes before every poll;
    - every poll comes before the invocation of the endpoint, and an
      invocation is preceded by a poll that was answered with a terminal
      status;
    - every deletion comes after every call that is not a deletion. *)
Theorem execution_order fuel :
  let log := log_of cell_str float_of_str E fuel in
  (∀ j jb, log !! j = Some (CreateJob jb) →
     ∃ i local_path uri, i < j ∧ log !! i = Some (PutObject local_path uri)
       ∧ cmd_ScriptLocation (job_Command jb) = uploaded_uri E local_path uri)
  ∧ precedes is_create is_start log
  ∧ precedes is_start is_poll log
  ∧ precedes is_poll is_invocation log
  ∧ (∀ j c, log !! j = Some c → is_invocation c = true →
       ∃ i, i < j ∧ log !! i = Some (poll E)
         ∧ terminal (Run_Status E (polls_made (take i log))) = true)
  ∧ (∀ i j c d, log !! i = Some c → log !! j = Some d →
       is_delete c = true → is_delete d = false → j < i).
Proof.
  intros log. subst log. pose proof (in_order_log fuel) as Horder.
  split; [|split; [|split; [|split; [|split]]]].
  - intros j jb Hj.
    destruct (log_of_provision fuel) as (rest & Hlog & Hrest). rewrite Hlog in *.
    apply lookup_app_Some in Hj as [Hj|[_ Hj]].
    + destruct j as [|[|[|[|[|[|[|[|[|j]]]]]]]]]; cbn in Hj; try discriminate Hj.
      * injection Hj as <-. exists 3. do 2 eexists. split; [lia|].
        split; [apply lookup_app_l_Some|]; reflexivity.
      * injection Hj as <-. exists 5. do 2 eexists. split; [lia|].
        split; [apply lookup_app_l_Some|]; reflexivity.
    + pose proof (Forall_lookup_1 _ _ _ _ Hrest Hj) as Hrank. cbn in Hrank. lia.
  - apply in_order_precedes; [exact Horder|].
    intros [] [] Hc Hd; try discriminate Hc; try discriminate Hd; cbn; lia.
  - apply in_order_precedes; [exact Horder|].
    intros [] [] Hc Hd; try discriminate Hc; try discriminate Hd; cbn; lia.
  - apply in_order_precedes; [exact Horder|].
    intros [] [] Hc Hd; try discriminate Hc; try discriminate Hd; cbn; lia.
  - intros j c Hj Hc.
    destruct (log_of_cases fuel) as [(n & _ & _ & Hend & Hlog)|[_ Hlog]].
    + set (before := provision_trace E ++ start_trace E
                     ++ concat (replicate n (busy_trace E))).
      assert (Hsplit : log_of cell_str float_of_str E fuel
                       = before ++ poll E
                         :: (Stdout (Run_Status E n)
                             :: evaluation_log cell_str E
                             ++ match evaluated cell_str float_of_str E with
                                | Ok _ => clean_up_trace E
                                | _ => []
                                end)).
      { rewrite Hlog. unfold session_trace, polling_trace, before.
        rewrite <- !app_assoc. reflexivity. }
      assert (Hpoll : log_of cell_str float_of_str E fuel !! length before = Some (poll E)).
      { rewrite Hsplit. apply list_lookup_middle. reflexivity. }
      exists (length before). split; [|split; [exact Hpoll|]].
      * apply (Horder _ _ _ _ Hpoll Hj). destruct c; try discriminate Hc. cbn. lia.
      * rewrite Hsplit, take_app_length. unfold before.
        rewrite !polls_made_app, polls_made_rounds. exact Hend.
    + exfalso.
      assert (Hnone : Forall (λ c, is_invocation c = false)
                        (log_of cell_str float_of_str E fuel)).
      { rewrite Hlog, !Forall_app. split; [|split; [|apply Forall_rounds]];
          repeat constructor. }
      rewrite (Forall_lookup_1 _ _ _ _ Hnone Hj) in Hc. discriminate.
  - intros i j c d Hi Hj Hc Hd. apply (Horder _ _ _ _ Hj Hi).
    destruct c; try discriminate Hc; destruct d; try discriminate Hd; cbn; lia.
Qed.

(** ** Runs that reach the end of the notebook *)

Lemma complete_run fuel predictions log :
  Notebook.notebook cell_str float_of_str E fuel [] = (Ok predictions, log) →
  ∃ n, n < fuel ∧ in_progress E n ∧ terminal (Run_Status E n) = true
    ∧ parsed cell_str float_of_str E = Ok predictions
    ∧ log = provision_trace E ++ start_trace E ++ polling_trace E n
            ++ evaluate_trace cell_str E ++ clean_up_trace E.
Proof.
  intros Hrun.
  destruct (notebook_cases fuel) as [(n & Hn & Hbusy & Hend & Hrun')|[_ Hout]];
    [|rewrite Hout in Hrun; discriminate].
  rewrite Hrun' in Hrun. injection Hrun as Houtcome Hlog.
  destruct (evaluated_ok _ Houtcome) as (Hfile & Hparsed & _).
  exists n. repeat split; try assumption.
  rewrite <- Hlog. unfold session_trace, evaluation_log.
  rewrite Houtcome, Hfile. reflexivity.
Qed.

Lemma job_names_differ :
  Notebook.data_processing_job_name E ≠ Notebook.model_training_deployment_job_name E.
Proof. discriminate. Qed.

Lemma trigger_names_differ :
  Notebook.data_processing_trigger_name E ≠ Notebook.model_train_deploy_trigger_name E.
Proof. discriminate. Qed.

Lemma foldl_idle live l :
  Forall (λ c, creates c = None ∧ deletes c = None) l →
  foldl account_step live l = live.
Proof.
  induction 1 as [|c l [Hc Hd] _ IH]; [reflexivity|].
  cbn [foldl]. unfold account_step at 2. rewrite Hc, Hd. exact IH.
Qed.

Lemma left_behind_complete n :
  left_behind (provision_trace E ++ start_trace E ++ polling_trace E n
               ++ evaluate_trace cell_str E ++ clean_up_trace E)
  = [ IamRole Notebook.glue_role_name;
      S3Object "../data/churn_processed.csv" (Notebook.raw_data E);
      S3Object "./code/glue_preprocessing.py" (scripts_uri E);
      S3Object "./code/model_training_deployment.py" (scripts_uri E) ].
Proof.
  unfold left_behind. rewrite !foldl_app.
  change (foldl account_step [] (provision_trace E))
    with [ IamRole Notebook.glue_role_name;
           S3Object "../data/churn_processed.csv" (Notebook.raw_data E);
           GlueWorkflow (Notebook.glue_workflow_name E);
           S3Object "./code/glue_preprocessing.py" (scripts_uri E);
           GlueJob (Notebook.data_processing_job_name E);
           S3Object "./code/model_training_deployment.py" (scripts_uri E);
           GlueJob (Notebook.model_training_deployment_job_name E);
           GlueTrigger (Notebook.data_processing_trigger_name E);
           GlueTrigger (Notebook.model_train_deploy_trigger_name E) ].
  rewrite (foldl_idle _ (start_trace E)) by (repeat constructor).
  rewrite (foldl_idle _ (polling_trace E n))
    by (apply Forall_app; split; [apply Forall_rounds|]; repeat constructor).
  rewrite (foldl_idle _ (evaluate_trace cell_str E)) by (repeat constructor).
  pose proof job_names_differ. pose proof trigger_names_differ.
  cbn [clean_up_trace foldl account_step creates deletes List.filter].
  repeat (match goal with
          | |- context [bool_decide (?a = ?b)] =>
              first [ rewrite (bool_decide_eq_true_2 (a = b)) by reflexivity
                    | rewrite (bool_decide_eq_false_2 (a = b)) by congruence ]
          end; cbn [negb List.filter]).
  reflexivity.
Qed.

(** ** Clean-up *)

(** C6, as the code has it: a run that reaches the end of the notebook
    ends with six deletions, of the two Glue jobs, the two Glue triggers,
    the Glue workflow and the endpoint, in this order, and nothing is
    deleted before them.  No Glue job, trigger or workflow the run created
    is left; the IAM role and the three objects uploaded to S3 are. *)
Theorem clean_up_deletes fuel predictions log :
  Notebook.notebook cell_str float_of_str E fuel [] = (Ok predictions, log) →
  (∃ before,
     log = before
           ++ [ DeleteJob (Notebook.data_processing_job_name E);
                DeleteJob (Notebook.model_training_deployment_job_name E);
                DeleteTrigger (Notebook.data_processing_trigger_name E);
                DeleteTrigger (Notebook.model_train_deploy_trigger_name E);
                DeleteWorkflow (Notebook.glue_workflow_name E);
                DeleteEndpoint (Notebook.endpoint_name E) ]
     ∧ Forall (λ c, is_delete c = false) before)
  ∧ left_behind log
    = [ IamRole Notebook.glue_role_name;
        S3Object "../data/churn_processed.csv" (Notebook.raw_data E);
        S3Object "./code/glue_preprocessing.py" (scripts_uri E);
        S3Object "./code/model_training_deployment.py" (scripts_uri E) ].
Proof.
  intros Hrun. destruct (complete_run _ _ _ Hrun) as (n & _ & _ & _ & _ & ->).
  split; [|apply left_behind_complete].
  exists (provision_trace E ++ start_trace E ++ polling_trace E n
          ++ evaluate_trace cell_str E).
  split; [rewrite <- !app_assoc; reflexivity|].
  unfold polling_trace. rewrite !Forall_app. repeat split;
    try apply Forall_rounds; repeat constructor.
Qed.

(** ** Names *)

Lemma endpoints_handed_over_first :
  endpoints_handed_over (Notebook.data_processing_trigger E) = [].
Proof.
  unfold endpoints_handed_over. cbn [Notebook.data_processing_trigger trg_Actions omap list_omap act_Arguments]. rewrite !lookup_insert_ne by discriminate.
  rewrite lookup_singleton_ne by discriminate. reflexivity.
Qed.

Lemma endpoints_handed_over_second :
  endpoints_handed_over (Notebook.model_train_deploy_trigger E) = [Notebook.endpoint_name E].
Proof.
  unfold endpoints_handed_over. cbn [Notebook.model_train_deploy_trigger trg_Actions omap list_omap act_Arguments]. rewrite !lookup_insert_ne by discriminate.
  rewrite lookup_singleton_eq. reflexivity.
Qed.

(** C8: in a run that reaches the end of the notebook, the names passed to
    delete_job, delete_trigger and delete_workflow are, one for one and in
    order, the names passed to create_job, create_trigger and
    create_workflow, and the name passed to delete_endpoint is the
    endpoint name handed to the training and deployment trigger, which is
    also the name the endpoint was invoked under. *)
Theorem names_flow_unchanged fuel predictions log :
  Notebook.notebook cell_str float_of_str E fuel [] = (Ok predictions, log) →
  deleted_jobs log = map job_Name (created_jobs log)
  ∧ deleted_triggers log = map trg_Name (created_triggers log)
  ∧ deleted_workflows log = created_workflows log
  ∧ deleted_endpoints log = created_triggers log ≫= endpoints_handed_over
  ∧ deleted_endpoints log = map (λ inv, inv.1.1) (invocations log).
Proof.
  intros Hrun. destruct (complete_run _ _ _ Hrun) as (n & _ & _ & _ & _ & ->).
  assert (Hread : ∀ A (f : call → option A),
             omap f (start_trace E) = [] → omap f (busy_trace E) = [] →
             (∀ status, omap f (final_trace E status) = []) →
             omap f (provision_trace E ++ start_trace E ++ polling_trace E n
                     ++ evaluate_trace cell_str E ++ clean_up_trace E)
             = omap f (provision_trace E) ++ omap f (evaluate_trace cell_str E)
               ++ omap f (clean_up_trace E)).
  { intros A f Hs Hb Hf. unfold polling_trace.
    rewrite !omap_app, Hs, Hf, (omap_rounds _ _ _ Hb). reflexivity. }
  unfold deleted_jobs, deleted_triggers, deleted_workflows, deleted_endpoints,
    created_jobs, created_triggers, created_workflows, invocations.
  rewrite !Hread by reflexivity.
  repeat split; reflexivity.
Qed.

(** ** The request to the endpoint and the answer *)

Lemma to_csv_plain (frame : Pandas.DataFrame cell) :
  Pandas.to_csv cell_str false false frame
  = String.concat ""
      (map (λ r, Py.join "," (map (λ c, cell_str (Pandas.at_ frame c r))
                                  (Pandas.columns frame)) +:+ Py.LF)
           (Pandas.index frame)).
Proof. unfold Pandas.to_csv. cbn [app]. rewrite map_map. reflexivity. Qed.

Lemma invocations_in_log fuel :
  invocations (log_of cell_str float_of_str E fuel) = []
  ∨ invocations (log_of cell_str float_of_str E fuel)
    = [(Notebook.endpoint_name E, "text/csv", payload cell_str E)].
Proof.
  unfold invocations.
  edestruct (omap_log_of (λ c, match c with
                               | InvokeEndpoint n t b => Some (n, t, b)
                               | _ => None
                               end) fuel) as (rest & Hlog & Hrest);
    [reflexivity | reflexivity | intros; reflexivity |].
  rewrite Hlog.
  destruct Hrest as [->|[->|[->| ->]]]; [left | left | right | right]; reflexivity.
Qed.

Lemma drop_first_label w : drop 1 (seq 0 w) = seq 1 (w - 1).
Proof. destruct w; cbn; [reflexivity|]. rewrite Nat.sub_0_r. reflexivity. Qed.

Lemma payload_lines :
  payload cell_str E
  = Py.encode
      (String.concat ""
         (map (λ r, Py.join "," (map (λ c, cell_str (Pandas.field (test_csv E) r c))
                                     (seq 1 (Pandas.width (test_csv E) - 1)))
                    +:+ Py.LF)
              (seq 0 (Pandas.height (test_csv E))))).
Proof.
  unfold payload. rewrite to_csv_plain.
  cbn [features Pandas.columns Pandas.index Pandas.at_ Notebook.df Pandas.frame_of].
  rewrite drop_first_label. reflexivity.
Qed.

(** C9: the frame read with [header=None] has the columns 0, 1, 2, ...;
    the body of every invocation is made of the columns 1 to the last, row
    by row; column 0, the one the cross-tabulation reads as actuals, is
    not among them, and changing its values changes nothing in the body. *)
Theorem payload_omits_first_column :
  Pandas.columns (Notebook.df E) = seq 0 (Pandas.width (test_csv E))
  ∧ Pandas.getitem (Notebook.df E) (drop 1 (Pandas.columns (Notebook.df E)))
    = Some (features E)
  ∧ Pandas.columns (features E) = seq 1 (Pandas.width (test_csv E) - 1)
  ∧ (0 ∉ Pandas.columns (features E))
  ∧ (∀ fuel,
       Forall (λ inv, inv.2 = Py.encode (Pandas.to_csv cell_str false false (features E)))
         (invocations (log_of cell_str float_of_str E fuel)))
  ∧ Py.encode (Pandas.to_csv cell_str false false (features E))
    = Py.encode
        (String.concat ""
           (map (λ r, Py.join ","
                        (map (λ c, cell_str (Pandas.field (test_csv E) r c))
                             (seq 1 (Pandas.width (test_csv E) - 1)))
                      +:+ Py.LF)
                (seq 0 (Pandas.height (test_csv E)))))
  ∧ Pandas.series (Notebook.df E) 0
    = map (λ r, Pandas.field (test_csv E) r 0) (seq 0 (Pandas.height (test_csv E)))
  ∧ (∀ E' : env cell,
       Pandas.width (test_csv E') = Pandas.width (test_csv E) →
       Pandas.height (test_csv E') = Pandas.height (test_csv E) →
       (∀ r c, 1 ≤ c →
          Pandas.field (test_csv E') r c = Pandas.field (test_csv E) r c) →
       payload cell_str E' = payload cell_str E).
Proof.
  split; [reflexivity|]. split; [apply getitem_features|].
  split; [apply drop_first_label|]. split.
  { cbn [features Pandas.columns Notebook.df Pandas.frame_of].
    rewrite drop_first_label, list_elem_of_In, in_seq. lia. }
  split.
  { intros fuel. destruct (invocations_in_log fuel) as [-> | ->]; repeat constructor. }
  split; [apply payload_lines|]. split; [reflexivity|].
  intros E' Hw Hh Hsame.
  unfold payload. rewrite !to_csv_plain.
  cbn [features Pandas.columns Pandas.index Pandas.at_ Notebook.df Pandas.frame_of].
  rewrite Hw, Hh, !drop_first_label. f_equal. f_equal.
  apply map_ext. intros r. f_equal. f_equal.
  apply map_ext_in. intros c Hc. apply in_seq in Hc. rewrite Hsame by lia. reflexivity.
Qed.

End Cells.

(** ** Resource names *)

(** C10: the workflow name, the two job names and the two trigger names
    are each a fixed prefix followed by the session's uuid4 hex string, so
    they are determined by it, and they are pairwise distinct.  The endpoint
    name is a fixed prefix followed by month-day-hour-minute of the set-up
    time: two sessions set up in the same minute of the same day of the same
    month get the same endpoint name, whatever their ids. *)
Theorem resource_names {cell : Type} (E : env cell) :
  Notebook.glue_workflow_name E = "CustomerChurnMLWorkflow-" +:+ uuid4_hex E
  ∧ Notebook.data_processing_job_name E = "DataProcessingJob-" +:+ uuid4_hex E
  ∧ Notebook.model_training_deployment_job_name E
    = "ModelTrainingDeploymentJob-" +:+ uuid4_hex E
  ∧ Notebook.data_processing_trigger_name E
    = "TriggerDataProcessingJob-" +:+ uuid4_hex E
  ∧ Notebook.model_train_deploy_trigger_name E
    = "TriggerModelTrainingDeploymentJob-" +:+ uuid4_hex E
  ∧ NoDup [ Notebook.glue_workflow_name E;
            Notebook.data_processing_job_name E;
            Notebook.model_training_deployment_job_name E;
            Notebook.data_processing_trigger_name E;
            Notebook.model_train_deploy_trigger_name E ]
  ∧ Notebook.endpoint_name E
    = "gw-customer-churn-endpoint-"
      +:+ Py.str (month (datetime_now E)) +:+ "-" +:+ Py.str (day (datetime_now E))
      +:+ "-" +:+ Py.str (hour (datetime_now E)) +:+ "-"
      +:+ Py.str (minute (datetime_now E))
  ∧ (∀ (cell' : Type) (E' : env cell'),
       month (datetime_now E') = month (datetime_now E) →
       day (datetime_now E') = day (datetime_now E) →
       hour (datetime_now E') = hour (datetime_now E) →
       minute (datetime_now E') = minute (datetime_now E) →
       Notebook.endpoint_name E' = Notebook.endpoint_name E).
Proof.
  do 5 (split; [reflexivity|]). split.
  - rewrite !NoDup_cons, !not_elem_of_cons.
    repeat split; try discriminate; try apply not_elem_of_nil. apply NoDup_nil_2.
  - split; [reflexivity|].
    intros cell' E' Hmonth Hday Hhour Hminute.
    unfold Notebook.endpoint_name, Notebook.timestamp_suffix, Notebook.current_time.
    rewrite Hmonth, Hday, Hhour, Hminute. reflexivity.
Qed.

(** ** The sample session *)

Example sample_names :
  Notebook.glue_workflow_name sample_env
  = "CustomerChurnMLWorkflow-0123456789abcdef0123456789abcdef"
  ∧ Notebook.endpoint_name sample_env = "gw-customer-churn-endpoint-7-4-9-5".
Proof. split; reflexivity. Qed.

Example sample_payload :
  payload (λ s, s) sample_env = Py.encode ("0.5,7" +:+ Py.LF +:+ "0.25,9" +:+ Py.LF).
Proof. reflexivity. Qed.

Example sample_run_ends :
  (Notebook.notebook (λ s, s) sample_float sample_env 3 []).1 = Ok ["0.9"; "0.1"].
Proof. vm_compute. reflexivity. Qed.

Example sample_run_short_of_fuel :
  (Notebook.notebook (λ s, s) sample_float sample_env 2 []).1 = OutOfFuel.
Proof. vm_compute. reflexivity. Qed.

Example sample_polls :
  List.filter is_poll (log_of (λ s, s) sample_float sample_env 3)
  = [poll sample_env; poll sample_env; poll sample_env].
Proof. vm_compute. reflexivity. Qed.

(** C6 as the spec states it fails on the sample session: the run reaches
    the end of the notebook, and the role and the three uploaded objects
    are still there. *)
Lemma clean_up_leaves_uploads :
  (Notebook.notebook (λ s, s) sample_float sample_env 3 []).1 = Ok ["0.9"; "0.1"]
  ∧ left_behind (Notebook.notebook (λ s, s) sample_float sample_env 3 []).2
    = [ IamRole "AWS-Glue-S3-SageMaker-Access";
        S3Object "../data/churn_processed.csv"
          "s3://sagemaker-ap-southeast-2-000000000000/sagemaker/DEMO-xgboost-customer-churn/input";
        S3Object "./code/glue_preprocessing.py"
          "s3://sagemaker-ap-southeast-2-000000000000/sagemaker/DEMO-xgboost-customer-churn/glue/scripts";
        S3Object "./code/model_training_deployment.py"
          "s3://sagemaker-ap-southeast-2-000000000000/sagemaker/DEMO-xgboost-customer-churn/glue/scripts" ]
  ∧ left_behind (Notebook.notebook (λ s, s) sample_float sample_env 3 []).2 ≠ [].
Proof.
  split; [vm_compute; reflexivity|].
  split; [vm_compute; reflexivity|].
  vm_compute. discriminate.
Qed.

Lemma clean_up_deletes_witness :
  Notebook.notebook (λ s, s) sample_float sample_env 3 []
  = (Ok ["0.9"; "0.1"], log_of (λ s, s) sample_float sample_env 3)
  ∧ left_behind (log_of (λ s, s) sample_float sample_env 3)
    = [ IamRole Notebook.glue_role_name;
        S3Object "../data/churn_processed.csv" (Notebook.raw_data sample_env);
        S3Object "./code/glue_preprocessing.py" (scripts_uri sample_env);
        S3Object "./code/model_training_deployment.py" (scripts_uri sample_env) ].
Proof.
  assert (Hrun : Notebook.notebook (λ s, s) sample_float sample_env 3 []
                 = (Ok ["0.9"; "0.1"], log_of (λ s, s) sample_float sample_env 3))
    by (vm_compute; reflexivity).
  split; [exact Hrun|].
  exact (proj2 (clean_up_deletes (λ s, s) sample_float sample_env 3 _ _ Hrun)).
Defined.

Lemma names_flow_unchanged_witness :
  Notebook.notebook (λ s, s) sample_float sample_env 3 []
  = (Ok ["0.9"; "0.1"], log_of (λ s, s) sample_float sample_env 3)
  ∧ deleted_jobs (log_of (λ s, s) sample_float sample_env 3)
    = map job_Name (created_jobs (log_of (λ s, s) sample_float sample_env 3)).
Proof.
  assert (Hrun : Notebook.notebook (λ s, s) sample_float sample_env 3 []
                 = (Ok ["0.9"; "0.1"], log_of (λ s, s) sample_float sample_env 3))
    by (vm_compute; reflexivity).
  split; [exact Hrun|].
  exact (proj1 (names_flow_unchanged (λ s, s) sample_float sample_env 3 _ _ Hrun)).
Defined.

Lemma polling_termination_witness :
  Notebook.poll_loop stuck_env 7 (RunId stuck_env) []
  = (OutOfFuel, concat (replicate 7 (busy_trace stuck_env))).
Proof.
  refine (proj1 (proj1 (proj2 (proj2 (polling_termination (λ s, s) sample_float
                                        stuck_env [])))
                   _ 7)).
  intros n. reflexivity.
Defined.

Lemma payload_omits_first_column_witness :
  Pandas.series (Notebook.df relabelled_env) 0 ≠ Pandas.series (Notebook.df sample_env) 0
  ∧ payload (λ s, s) relabelled_env = payload (λ s, s) sample_env.
Proof.
  split; [discriminate|].
  refine (proj2 (proj2 (proj2 (proj2 (proj2 (proj2 (proj2
            (payload_omits_first_column (λ s, s) sample_float sample_env)))))))
            relabelled_env _ _ _); [reflexivity | reflexivity |].
  intros r [|c] Hc; [lia | reflexivity].
Defined.

Lemma resource_names_witness :
  Notebook.glue_workflow_name second_session_env ≠ Notebook.glue_workflow_name sample_env
  ∧ Notebook.endpoint_name second_session_env = Notebook.endpoint_name sample_env.
Proof.
  split; [discriminate|].
  refine (proj2 (proj2 (proj2 (proj2 (proj2 (proj2 (proj2
            (resource_names sample_env)))))))
            string second_session_env _ _ _ _); reflexivity.
Defined.

(** * Further properties of the notebook *)

(** ** Strings *)

Lemma append_assoc_str (a b c : string) : (a +:+ b) +:+ c = a +:+ b +:+ c.
Proof.
  induction a as [|x a IH]; [reflexivity|].
  change (String x ((a +:+ b) +:+ c) = String x (a +:+ b +:+ c)). f_equal. exact IH.
Qed.

Lemma occurs_append c (a b : string) : occurs c (a +:+ b) = occurs c a || occurs c b.
Proof.
  induction a as [|x a IH]; [reflexivity|].
  change (Ascii.eqb x c || occurs c (a +:+ b)
          = (Ascii.eqb x c || occurs c a) || occurs c b).
  rewrite IH, orb_assoc. reflexivity.
Qed.

(** Two texts cut at the first occurrence of a character agree piece by
    piece. *)
Lemma append_sep_inj c (a a' b b' : string) :
  occurs c a = false → occurs c a' = false →
  a +:+ String c b = a' +:+ String c b' → a = a' ∧ b = b'.
Proof.
  revert a'. induction a as [|x a IH]; intros [|x' a'] Ha Ha' Heq; cbn in *.
  - injection Heq as ->. auto.
  - injection Heq as <- _. rewrite Ascii.eqb_refl in Ha'. discriminate.
  - injection Heq as -> _. rewrite Ascii.eqb_refl in Ha. discriminate.
  - injection Heq as -> Heq.
    apply orb_false_elim in Ha as [_ Ha]. apply orb_false_elim in Ha' as [_ Ha'].
    destruct (IH a' Ha Ha' Heq) as [-> ->]. auto.
Qed.

Lemma pretty_N_go_no_dash x s :
  occurs "-"%char s = false → occurs "-"%char (pretty_N_go x s) = false.
Proof.
  revert s. induction (N.lt_wf_0 x) as [x _ IH]; intros s Hs.
  destruct (decide (x = 0)%N) as [->|Hx]; [rewrite pretty_N_go_0; exact Hs|].
  rewrite pretty_N_go_step by lia. apply IH; [apply N.div_lt; lia|].
  cbn [occurs]. rewrite Hs, orb_false_r.
  unfold pretty_N_char. repeat case_match; reflexivity.
Qed.

Lemma str_no_dash n : occurs "-"%char (Py.str n) = false.
Proof.
  unfold Py.str, pretty, pretty_nat, pretty, pretty_N.
  case_decide; [reflexivity|]. apply pretty_N_go_no_dash. reflexivity.
Qed.

(** ** Endpoint names and S3 locations *)

(** X10: two sessions get the same endpoint name exactly when their set-up
    times agree on month, day, hour and minute. *)
Theorem endpoint_name_same_iff {cell cell' : Type} (E : env cell) (E' : env cell') :
  Notebook.endpoint_name E = Notebook.endpoint_name E'
  ↔ month (datetime_now E) = month (datetime_now E')
    ∧ day (datetime_now E) = day (datetime_now E')
    ∧ hour (datetime_now E) = hour (datetime_now E')
    ∧ minute (datetime_now E) = minute (datetime_now E').
Proof.
  unfold Notebook.endpoint_name, Notebook.timestamp_suffix, Notebook.current_time.
  split.
  - intros Heq. apply String.app_inj in Heq.
    apply append_sep_inj in Heq as [Hmonth Heq]; [|apply str_no_dash..].
    apply append_sep_inj in Heq as [Hday Heq]; [|apply str_no_dash..].
    apply append_sep_inj in Heq as [Hhour Hminute]; [|apply str_no_dash..].
    unfold Py.str in *. repeat split; eapply (inj pretty); eassumption.
  - intros (-> & -> & -> & ->). reflexivity.
Qed.

Ltac strip_common_prefix H :=
  rewrite ?append_assoc_str in H;
  repeat (apply String.app_inj in H);
  cbn in H; discriminate H.

Lemma test_file_location {cell : Type} (E : env cell) :
  Notebook.test_data E +:+ Notebook.test_data_file
  = Notebook.processed_data E +:+ "/test/test.csv".
Proof.
  unfold Notebook.test_data, Notebook.test_prefix, Notebook.test_data_file.
  rewrite !append_assoc_str. reflexivity.
Qed.

Lemma input_processed_apart {cell : Type} (E : env cell) :
  ¬ under (Notebook.raw_data E) (Notebook.processed_data E)
  ∧ ¬ under (Notebook.processed_data E) (Notebook.raw_data E).
Proof.
  unfold Notebook.raw_data, Notebook.processed_data.
  split; intros [rest Hrest]; strip_common_prefix Hrest.
Qed.

(** X12: the dataset, the processed data, the job scripts and the model
    output are kept at four S3 locations none of which lies under another,
    whatever the bucket; the train, validation and test sets are three
    folders under the processed data, none under another; and the test file
    the notebook fetches is test.csv in the test folder. *)
Theorem s3_locations_apart {cell : Type} (E : env cell) :
  (∀ i j a b,
     [ Notebook.raw_data E; Notebook.processed_data E; scripts_uri E;
       Notebook.model_output_path E ] !! i = Some a →
     [ Notebook.raw_data E; Notebook.processed_data E; scripts_uri E;
       Notebook.model_output_path E ] !! j = Some b →
     under a b → i = j)
  ∧ (∀ i j a b,
       [ Notebook.train_data E; Notebook.validation_data E; Notebook.test_data E ] !! i
       = Some a →
       [ Notebook.train_data E; Notebook.validation_data E; Notebook.test_data E ] !! j
       = Some b →
       under a b → i = j)
  ∧ Forall (under (Notebook.processed_data E +:+ "/"))
      [ Notebook.train_data E; Notebook.validation_data E; Notebook.test_data E ]
  ∧ Notebook.test_data E +:+ Notebook.test_data_file
    = Notebook.processed_data E +:+ "/test/test.csv".
Proof.
  split; [|split; [|split]].
  - intros i j a b Hi Hj [rest Hrest].
    unfold Notebook.raw_data, Notebook.processed_data, scripts_uri,
      Notebook.model_output_path in Hi, Hj.
    destruct i as [|[|[|[|i]]]]; cbn in Hi; try discriminate Hi;
      injection Hi as <-;
      destruct j as [|[|[|[|j]]]]; cbn in Hj; try discriminate Hj;
      injection Hj as <-; try reflexivity; strip_common_prefix Hrest.
  - intros i j a b Hi Hj [rest Hrest].
    unfold Notebook.train_data, Notebook.validation_data, Notebook.test_data,
      Notebook.train_prefix, Notebook.val_prefix, Notebook.test_prefix in Hi, Hj.
    destruct i as [|[|[|i]]]; cbn in Hi; try discriminate Hi;
      injection Hi as <-;
      destruct j as [|[|[|j]]]; cbn in Hj; try discriminate Hj;
      injection Hj as <-; try reflexivity; strip_common_prefix Hrest.
  - unfold Notebook.train_data, Notebook.validation_data, Notebook.test_data, under.
    repeat constructor; eexists; rewrite !append_assoc_str; reflexivity.
  - apply test_file_location.
Qed.

(** ** Further properties of the runs *)

Section Runs.
Context {cell : Type} (cell_str : cell → string).
Context {float : Type} (float_of_str : string → option float).
Context (E : env cell).



(** X4: the location the dataset is uploaded to is the input directory
    handed to the preprocessing job; the processed directory handed to that
    job is the training input handed to the training job; and the test file
    is fetched from the test folder of that same directory.  The input and
    the processed directory do not lie under one another. *)
Theorem data_flow fuel :
  let log := log_of cell_str float_of_str E fuel in
  ∃ dataset processed,
    dataset = "s3://" +:+ default_bucket E
              +:+ "/sagemaker/DEMO-xgboost-customer-churn/input"
    ∧ head (uploads log) = Some ("../data/churn_processed.csv", dataset)
    ∧ created_triggers log ≫= trigger_argument "--INPUT_DIR" = [dataset]
    ∧ created_triggers log ≫= trigger_argument "--PROCESSED_DIR" = [processed]
    ∧ created_triggers log ≫= trigger_argument "--train_input_path" = [processed]
    ∧ Forall (λ d, d = (processed +:+ "/test/test.csv", "data")) (downloads log)
    ∧ ¬ under dataset processed ∧ ¬ under processed dataset.
Proof.
  intros log. subst log.
  exists (Notebook.raw_data E), (Notebook.processed_data E).
  destruct (created_in_log cell_str float_of_str E fuel) as (_ & _ & ->).
  split; [reflexivity|]. split.
  { destruct (log_of_provision cell_str float_of_str E fuel) as (rest & -> & _).
    reflexivity. }
  do 3 (split; [reflexivity|]). split.
  { rewrite <- (test_file_location E).
    unfold downloads.
    edestruct (omap_log_of cell_str float_of_str E
                 (λ c, match c with GetObject u l => Some (u, l) | _ => None end) fuel)
      as (rest & Hlog & Hrest); [reflexivity | reflexivity | intros; reflexivity |].
    rewrite Hlog. destruct Hrest as [->|[->|[->| ->]]]; repeat constructor. }
  apply input_processed_apart.
Qed.

(** X5: the IAM role is asked for before anything else; both Glue jobs run
    under the role that call returns, and the training job is handed the
    notebook's own SageMaker execution role. *)
Theorem role_wiring fuel :
  let log := log_of cell_str float_of_str E fuel in
  log !! 0 = Some (CreateGlueRole "AWS-Glue-S3-SageMaker-Access" (default_bucket E))
  ∧ created_roles log = [("AWS-Glue-S3-SageMaker-Access", default_bucket E)]
  ∧ Forall (λ j, job_Role j
                 = glue_role_arn_of E "AWS-Glue-S3-SageMaker-Access" (default_bucket E))
      (created_jobs log)
  ∧ created_triggers log ≫= trigger_argument "--role_arn" = [execution_role E].
Proof.
  intros log. subst log.
  destruct (created_in_log cell_str float_of_str E fuel) as (_ & -> & ->).
  split.
  { destruct (log_of_provision cell_str float_of_str E fuel) as (rest & -> & _).
    reflexivity. }
  split; [|split; [repeat constructor | reflexivity]].
  unfold created_roles.
  edestruct (omap_log_of cell_str float_of_str E
               (λ c, match c with CreateGlueRole n b => Some (n, b) | _ => None end) fuel)
    as (rest & Hlog & Hrest); [reflexivity | reflexivity | intros; reflexivity |].
  rewrite Hlog. destruct Hrest as [->|[->|[->| ->]]]; reflexivity.
Qed.

Lemma omap_concat_rounds {A} (f : call → option A) (l : list call) n :
  omap f (concat (replicate n l)) = concat (replicate n (omap f l)).
Proof.
  induction n as [|n IH]; [reflexivity|].
  cbn [replicate concat]. rewrite omap_app, IH. reflexivity.
Qed.

Lemma concat_replicate_one {A} (x : A) n : concat (replicate n [x]) = replicate n x.
Proof. induction n as [|n IH]; [reflexivity|]. cbn. rewrite IH. reflexivity. Qed.

Lemma slept_app l1 l2 : slept (l1 ++ l2) = slept l1 + slept l2.
Proof. unfold slept. rewrite omap_app, sum_list_with_app. reflexivity. Qed.

Lemma slept_rounds n : slept (concat (replicate n (busy_trace E))) = 30 * n.
Proof.
  induction n as [|n IH]; [reflexivity|].
  cbn [replicate concat]. rewrite slept_app, IH.
  change (slept (busy_trace E)) with 30. lia.
Qed.

Lemma printed_rounds n : printed (concat (replicate n (busy_trace E))) = replicate n ".".
Proof.
  unfold printed. rewrite omap_concat_rounds. apply concat_replicate_one.
Qed.

Lemma clean_up_silent :
  let tail := match evaluated cell_str float_of_str E with
              | Ok _ => clean_up_trace E
              | _ => []
              end in
  polls_made tail = 0 ∧ slept tail = 0 ∧ printed tail = [].
Proof. destruct (evaluated _ _ _); repeat split. Qed.

Lemma evaluation_silent :
  polls_made (evaluation_log cell_str E) = 0
  ∧ slept (evaluation_log cell_str E) = 0
  ∧ printed (evaluation_log cell_str E) = [].
Proof.
  destruct (evaluation_log_cases cell_str E) as [-> | ->]; repeat split.
Qed.

(** X3: the loop leaves at the first terminal answer.  When that is the
    answer to poll number n, counted from 0, a run that gets past the loop
    has polled n+1 times, slept 30 n seconds in all, and printed the
    heading, n dots and that status, nothing else.  A run still in the loop
    when its fuel is spent has polled and slept once per iteration. *)
Theorem polling_effort fuel :
  let run := Notebook.notebook cell_str float_of_str E fuel [] in
  (run.1 ≠ OutOfFuel →
   ∃ n, n < fuel ∧ in_progress E n ∧ terminal (Run_Status E n) = true
     ∧ polls_made run.2 = S n
     ∧ slept run.2 = 30 * n
     ∧ printed run.2 = "Checking workflow state:" :: replicate n "." ++ [Run_Status E n])
  ∧ (run.1 = OutOfFuel →
     in_progress E fuel
     ∧ polls_made run.2 = fuel
     ∧ slept run.2 = 30 * fuel
     ∧ printed run.2 = "Checking workflow state:" :: replicate fuel ".").
Proof.
  intros run. subst run.
  destruct clean_up_silent as (Hpolls & Hslept & Hprinted). cbv zeta in *.
  destruct evaluation_silent as (Hpolls' & Hslept' & Hprinted').
  destruct (notebook_cases cell_str float_of_str E fuel)
    as [(n & Hn & Hbusy & Hend & ->)|[Hbusy ->]]; cbn [fst snd]; split.
  - intros _. exists n. repeat split; try assumption;
      unfold session_trace, polling_trace.
    + rewrite !polls_made_app, polls_made_rounds, Hpolls, Hpolls'.
      change (polls_made (provision_trace E)) with 0.
      change (polls_made (start_trace E)) with 0.
      change (polls_made (final_trace E (Run_Status E n))) with 1. lia.
    + rewrite !slept_app, slept_rounds, Hslept, Hslept'.
      change (slept (provision_trace E)) with 0.
      change (slept (start_trace E)) with 0.
      change (slept (final_trace E (Run_Status E n))) with 0. lia.
    + unfold printed in *. rewrite !omap_app, Hprinted, Hprinted'.
      fold (printed (concat (replicate n (busy_trace E)))). rewrite printed_rounds.
      cbn [omap list_omap provision_trace start_trace final_trace app poll].
      rewrite app_nil_r. reflexivity.
  - intros Hout. contradiction (evaluated_ends cell_str float_of_str E Hout).
  - intros Hne. contradiction Hne. reflexivity.
  - intros _. split; [exact Hbusy|]. repeat split.
    + rewrite !polls_made_app, polls_made_rounds. reflexivity.
    + rewrite !slept_app, slept_rounds. reflexivity.
    + unfold printed. rewrite !omap_app.
      fold (printed (concat (replicate fuel (busy_trace E)))). rewrite printed_rounds.
      reflexivity.
Qed.



End Runs.

(** ** The request body and the answer, field by field *)

Lemma split_no_sep c s : occurs c s = false → Py.split c s = [s].
Proof.
  induction s as [|x s IH]; [reflexivity|]. cbn [occurs Py.split].
  intros Hs. apply orb_false_elim in Hs as [-> Hs]. rewrite (IH Hs). reflexivity.
Qed.

Lemma split_append_sep c a b :
  occurs c a = false → Py.split c (a +:+ String c b) = a :: Py.split c b.
Proof.
  induction a as [|x a IH]; intros Ha.
  - change ("" +:+ String c b) with (String c b). cbn [Py.split].
    rewrite Ascii.eqb_refl. reflexivity.
  - cbn [occurs] in Ha. apply orb_false_elim in Ha as [Hx Ha].
    change (String x a +:+ String c b) with (String x (a +:+ String c b)).
    cbn [Py.split]. rewrite Hx, (IH Ha). reflexivity.
Qed.

Lemma split_join c l :
  l ≠ [] → Forall (λ p, occurs c p = false) l →
  Py.split c (Py.join (String c "") l) = l.
Proof.
  intros Hne Hl. induction Hl as [|p l Hp Hl IH]; [contradiction|].
  destruct l as [|q l]; [apply split_no_sep, Hp|].
  change (Py.join (String c "") (p :: q :: l))
    with (p +:+ String c (Py.join (String c "") (q :: l))).
  rewrite split_append_sep by exact Hp. rewrite IH by discriminate. reflexivity.
Qed.

Lemma length_split c s : length (Py.split c s) = S (count c s).
Proof.
  induction s as [|x s IH]; [reflexivity|]. cbn [Py.split count].
  destruct (Ascii.eqb x c); [cbn; rewrite IH; reflexivity|].
  destruct (Py.split c s); [discriminate IH|exact IH].
Qed.

Lemma encode_append a b : Py.encode (a +:+ b) = Py.encode a ++ Py.encode b.
Proof.
  unfold Py.encode. induction a as [|x a IH]; [reflexivity|].
  change (String.list_byte_of_string (String x a +:+ b))
    with (Ascii.byte_of_ascii x :: String.list_byte_of_string (a +:+ b)).
  rewrite IH. reflexivity.
Qed.

Lemma is_ascii_append a b :
  is_ascii (Py.encode (a +:+ b)) = is_ascii (Py.encode a) && is_ascii (Py.encode b).
Proof. unfold is_ascii. rewrite encode_append. apply forallb_app. Qed.

Lemma is_ascii_join sep l :
  is_ascii (Py.encode sep) = true →
  Forall (λ p, is_ascii (Py.encode p) = true) l →
  is_ascii (Py.encode (Py.join sep l)) = true.
Proof.
  intros Hsep Hl. induction Hl as [|p l Hp Hl IH]; [reflexivity|].
  destruct l as [|q l]; [exact Hp|].
  change (Py.join sep (p :: q :: l)) with (p +:+ sep +:+ Py.join sep (q :: l)).
  rewrite !is_ascii_append, Hp, Hsep, IH. reflexivity.
Qed.

Lemma is_ascii_concat l :
  Forall (λ p, is_ascii (Py.encode p) = true) l →
  is_ascii (Py.encode (String.concat "" l)) = true.
Proof.
  intros Hl. induction Hl as [|p l Hp Hl IH]; [reflexivity|].
  destruct l as [|q l]; [exact Hp|].
  change (String.concat "" (p :: q :: l)) with (p +:+ "" +:+ String.concat "" (q :: l)).
  rewrite !is_ascii_append, Hp, IH. reflexivity.
Qed.

Lemma ascii_decodes bs :
  is_ascii bs = true → Py.decode bs = Some (String.string_of_list_byte bs).
Proof.
  intros Hbs. unfold Py.decode.
  assert (Hvalid : Py.utf8_valid bs = true).
  { induction bs as [|b bs IH]; [reflexivity|].
    cbn [is_ascii forallb] in Hbs. apply andb_prop in Hbs as [Hb Hbs].
    cbn [Py.utf8_valid]. rewrite Hb. apply IH, Hbs. }
  rewrite Hvalid. reflexivity.
Qed.

Section Payloads.
Context {cell : Type} (cell_str : cell → string).
Context {float : Type} (float_of_str : string → option float).
Context (E : env cell).

(** X7: when no value of the test file is written with a comma in it, each
    line of the request body splits at its commas into the texts of the
    row's values in columns 1 to the last, one field per column; a file
    with the label column alone gives empty lines, which split into one
    empty field. *)
Theorem csv_fields_round_trip :
  (∀ r c, occurs ","%char (cell_str (Pandas.field (test_csv E) r c)) = false) →
  let fields r :=
    map (λ c, cell_str (Pandas.field (test_csv E) r c))
        (seq 1 (Pandas.width (test_csv E) - 1)) in
  payload cell_str E
  = Py.encode (String.concat ""
                 (map (λ r, Py.join "," (fields r) +:+ Py.LF)
                      (seq 0 (Pandas.height (test_csv E)))))
  ∧ ∀ r, Py.split ","%char (Py.join "," (fields r))
         = if decide (2 ≤ Pandas.width (test_csv E)) then fields r else [""].
Proof.
  intros Hcomma fields. split; [apply payload_lines|].
  intros r. subst fields. cbv beta.
  case_decide as Hw.
  - apply (split_join ","%char).
    + destruct (Pandas.width (test_csv E)) as [|[|w]]; [lia | lia | discriminate].
    + apply Forall_forall. intros p Hp. apply list_elem_of_In, in_map_iff in Hp
        as (c & <- & _). apply Hcomma.
  - replace (Pandas.width (test_csv E) - 1) with 0 by lia. reflexivity.
Qed.

(** X8: a run that reaches the end of the notebook has at least one
    prediction, and one more prediction than the endpoint's answer has
    commas. *)
Theorem predictions_count fuel predictions :
  (Notebook.notebook cell_str float_of_str E fuel []).1 = Ok predictions →
  ∃ text, Py.decode (response_Body cell_str E) = Some text
    ∧ length predictions = S (count ","%char text)
    ∧ predictions ≠ [].
Proof.
  intros Hok.
  destruct (Notebook.notebook cell_str float_of_str E fuel []) as [r log] eqn:Hrun.
  cbn [fst] in Hok. subst r.
  destruct (complete_run _ _ _ _ _ _ Hrun) as (n & _ & _ & _ & Hparsed & _).
  unfold parsed in Hparsed.
  destruct (Py.decode _) as [text|]; [|discriminate].
  destruct (mapM _ _) as [floats|] eqn:Hfloats; [|discriminate].
  injection Hparsed as <-. exists text. split; [reflexivity|].
  apply length_mapM in Hfloats. rewrite length_split in Hfloats.
  split; [symmetry; exact Hfloats|].
  intros ->. discriminate Hfloats.
Qed.

(** X9: when every value of the test file is written in ASCII, the request
    body is ASCII and decodes back to the CSV text it was encoded from. *)
Theorem payload_decodes :
  (∀ r c, is_ascii (Py.encode (cell_str (Pandas.field (test_csv E) r c))) = true) →
  is_ascii (payload cell_str E) = true
  ∧ Py.decode (payload cell_str E)
    = Some (Pandas.to_csv cell_str false false (features E)).
Proof.
  intros Hascii.
  assert (Hpayload : is_ascii (payload cell_str E) = true).
  { rewrite payload_lines. apply is_ascii_concat, Forall_forall.
    intros line Hline. apply list_elem_of_In, in_map_iff in Hline as (r & <- & _).
    rewrite is_ascii_append. apply andb_true_intro. split; [|reflexivity].
    apply is_ascii_join; [reflexivity|]. apply Forall_forall.
    intros p Hp. apply list_elem_of_In, in_map_iff in Hp as (c & <- & _).
    apply Hascii. }
  split; [exact Hpayload|].
  rewrite (ascii_decodes _ Hpayload). unfold payload, Py.encode.
  rewrite String.string_of_list_byte_of_string. reflexivity.
Qed.

End Payloads.

(** ** One workflow, and names across sessions *)

(** X6: every call of a run that names a workflow, creating it, attaching
    a trigger to it, starting a run of it, polling that run or deleting it,
    names the one workflow the run created. *)
Theorem one_workflow {cell : Type} (cell_str : cell → string)
    {float : Type} (float_of_str : string → option float) (E : env cell) fuel :
  let log := log_of cell_str float_of_str E fuel in
  ∃ name, created_workflows log = [name]
    ∧ Forall (λ n, n = name) (omap workflow_named log)
    ∧ 4 ≤ length (omap workflow_named log).
Proof.
  intros log. subst log. exists (Notebook.glue_workflow_name E).
  destruct (created_in_log cell_str float_of_str E fuel) as (-> & _ & _).
  split; [reflexivity|].
  destruct (log_of_cases cell_str float_of_str E fuel) as [(n & _ & _ & _ & ->)|[_ ->]].
  - unfold session_trace, polling_trace. rewrite !omap_app, !length_app. split.
    + rewrite !Forall_app. repeat split; try (repeat constructor; fail).
      * rewrite omap_concat_rounds. induction n; repeat constructor; assumption.
      * destruct (evaluation_log_cases cell_str E) as [-> | ->]; repeat constructor.
      * destruct (evaluated _ _ _); repeat constructor.
    + change (length (omap workflow_named (provision_trace E))) with 3.
      change (length (omap workflow_named (start_trace E))) with 1. lia.
  - rewrite !omap_app, !length_app. split.
    + rewrite !Forall_app. repeat split; try (repeat constructor; fail).
      rewrite omap_concat_rounds. induction fuel; repeat constructor; assumption.
    + change (length (omap workflow_named (provision_trace E))) with 3.
      change (length (omap workflow_named (start_trace E))) with 1. lia.
Qed.

(** X11: two sessions with different ids share none of their five Glue
    names. *)
Theorem glue_names_disjoint {cell cell' : Type} (E : env cell) (E' : env cell') :
  uuid4_hex E ≠ uuid4_hex E' →
  ∀ a b, a ∈ glue_names E → b ∈ glue_names E' → a ≠ b.
Proof.
  intros Hid a b Ha Hb Heq. unfold glue_names in Ha, Hb.
  repeat (apply elem_of_cons in Ha as [->|Ha]); [| | | | |inversion Ha];
    (repeat (apply elem_of_cons in Hb as [->|Hb]); [| | | | |inversion Hb]);
    first [ discriminate Heq
          | apply Hid; revert Heq; apply String.app_inj ].
Qed.

(** ** The further properties on the sample sessions *)



Lemma csv_fields_round_trip_witness :
  Py.split ","%char (Py.join "," ["0.25"; "9"]) = ["0.25"; "9"].
Proof.
  refine (proj2 (csv_fields_round_trip (λ s, s) sample_env _) 1).
  intros [|[|r]] [|[|[|c]]]; reflexivity.
Defined.

Lemma predictions_count_witness :
  (Notebook.notebook (λ s, s) sample_float sample_env 3 []).1 = Ok ["0.9"; "0.1"]
  ∧ ∃ text, Py.decode (response_Body (λ s, s) sample_env) = Some text
      ∧ length ["0.9"; "0.1"] = S (count ","%char text)
      ∧ ["0.9"; "0.1"] ≠ [].
Proof.
  assert (Hok : (Notebook.notebook (λ s, s) sample_float sample_env 3 []).1
                = Ok ["0.9"; "0.1"]) by (vm_compute; reflexivity).
  split; [exact Hok|].
  exact (predictions_count (λ s, s) sample_float sample_env 3 _ Hok).
Defined.

Lemma payload_decodes_witness :
  Py.decode (payload (λ s, s) sample_env)
  = Some (Pandas.to_csv (λ s, s) false false (features sample_env)).
Proof.
  refine (proj2 (payload_decodes (λ s, s) sample_env _)).
  intros [|[|r]] [|[|[|c]]]; reflexivity.
Defined.

Lemma glue_names_disjoint_witness :
  uuid4_hex sample_env ≠ uuid4_hex second_session_env
  ∧ Notebook.data_processing_job_name sample_env
    ≠ Notebook.data_processing_job_name second_session_env.
Proof.
  assert (Hid : uuid4_hex sample_env ≠ uuid4_hex second_session_env) by discriminate.
  split; [exact Hid|].
  apply (glue_names_disjoint sample_env second_session_env Hid);
    unfold glue_names; set_solver.
Defined.

Example sample_polling_effort :
  polls_made (log_of (λ s, s) sample_float sample_env 3) = 3
  ∧ slept (log_of (λ s, s) sample_float sample_env 3) = 60
  ∧ printed (log_of (λ s, s) sample_float sample_env 3)
    = ["Checking workflow state:"; "."; "."; "COMPLETED"].
Proof. repeat split; vm_compute; reflexivity. Qed.

(** ** The request and the answer in terms of the texts themselves *)

Lemma join_concat sep l : Py.join sep l = String.concat sep l.
Proof.
  induction l as [|p l IH]; [reflexivity|].
  destruct l as [|q l]; [reflexivity|].
  change (Py.join sep (p :: q :: l)) with (p +:+ sep +:+ Py.join sep (q :: l)).
  rewrite IH. reflexivity.
Qed.

Lemma occurs_In c s :
  occurs c s = false ↔ ¬ In c (String.list_ascii_of_string s).
Proof.
  induction s as [|x s IH]; [cbn; tauto|].
  cbn [occurs String.list_ascii_of_string In].
  rewrite orb_false_iff, IH, Ascii.eqb_neq. tauto.
Qed.

Lemma split_pieces c s : Forall (λ p, occurs c p = false) (Py.split c s).
Proof.
  induction s as [|x s IH]; [repeat constructor|]. cbn [Py.split].
  destruct (Ascii.eqb x c) eqn:Hx; [constructor; [reflexivity|exact IH]|].
  destruct (Py.split c s) as [|w ws].
  - repeat constructor. cbn [occurs]. rewrite Hx. reflexivity.
  - inversion IH as [|? ? Hw Hws]; subst. constructor; [|exact Hws].
    cbn [occurs]. rewrite Hx, Hw. reflexivity.
Qed.

Lemma join_split c s : Py.join (String c "") (Py.split c s) = s.
Proof.
  induction s as [|x s IH]; [reflexivity|]. cbn [Py.split].
  pose proof (length_split c s) as Hlen.
  destruct (Ascii.eqb x c) eqn:Hx.
  - apply Ascii.eqb_eq in Hx as ->.
    destruct (Py.split c s) as [|w ws]; [discriminate Hlen|].
    change (Py.join (String c "") ("" :: w :: ws))
      with (String c (Py.join (String c "") (w :: ws))).
    rewrite IH. reflexivity.
  - destruct (Py.split c s) as [|w ws]; [discriminate Hlen|].
    destruct ws as [|w' ws].
    + cbn in IH. subst w. reflexivity.
    + change (Py.join (String c "") (String x w :: w' :: ws))
        with (String x (Py.join (String c "") (w :: w' :: ws))).
      rewrite IH. reflexivity.
Qed.

Lemma is_ascii_bytes bs :
  Forall (λ b, (Byte.to_N b < 128)%N) bs → is_ascii bs = true.
Proof.
  intros Hbs. unfold is_ascii. induction Hbs as [|b bs Hb _ IH]; [reflexivity|].
  cbn [forallb]. rewrite IH, andb_true_r.
  unfold Py.between. apply andb_true_intro. split; apply N.leb_le; lia.
Qed.

Section Texts.
Context {cell : Type} (cell_str : cell → string).
Context {float : Type} (float_of_str : string → option float).
Context (E : env cell).

Lemma payload_text :
  payload cell_str E
  = String.list_byte_of_string
      (String.concat ""
         (map (λ r, String.concat ","
                      (map (λ c, cell_str (Pandas.field (test_csv E) r c))
                           (seq 1 (Pandas.width (test_csv E) - 1)))
                    +:+ String "010"%char "")
              (seq 0 (Pandas.height (test_csv E))))).
Proof.
  rewrite payload_lines. unfold Py.encode. do 3 f_equal.
Qed.

(** C7: the only invocation a log can hold is the one of the endpoint
    named at set-up, with content type text/csv and a body that holds the
    bytes of this text: for each line of the test file in turn, the texts
    of its values in columns 1 to the last with a comma between each two,
    then a line feed; no line of column labels, no row label.  When the run
    reaches the end of the notebook there is exactly that one invocation,
    and the predictions are the floats of the pieces of the answer: the
    texts without a comma that, with a comma between each two, make up the
    text whose bytes the endpoint answered.  And a run that gets past the
    loop does reach the end when the test file is read and the answer is
    ASCII and made of as many such pieces as the file has lines, each of
    which converts. *)
Theorem csv_in_csv_out fuel :
  let run := Notebook.notebook cell_str float_of_str E fuel [] in
  let line r :=
    String.concat "," (map (λ c, cell_str (Pandas.field (test_csv E) r c))
                           (seq 1 (Pandas.width (test_csv E) - 1)))
    +:+ String "010"%char "" in
  let body :=
    String.list_byte_of_string
      (String.concat "" (map line (seq 0 (Pandas.height (test_csv E))))) in
  let request := (Notebook.endpoint_name E, "text/csv", body) in
  let answered := endpoint_Body E (Notebook.endpoint_name E) body in
  let comma_free piece := ¬ In ","%char (String.list_ascii_of_string piece) in
  Forall (λ inv, inv = request) (invocations run.2)
  ∧ (∀ predictions, run.1 = Ok predictions →
       invocations run.2 = [request]
       ∧ ∃ answer pieces,
           String.list_byte_of_string answer = answered
           ∧ String.concat "," pieces = answer
           ∧ Forall comma_free pieces
           ∧ mapM float_of_str pieces = Some predictions)
  ∧ (∀ answer pieces predictions,
       run.1 ≠ OutOfFuel →
       Pandas.read_csv (test_csv_unreadable E) (test_csv E) = inr (Notebook.df E) →
       String.list_byte_of_string answer = answered →
       Forall (λ b, (Byte.to_N b < 128)%N) answered →
       String.concat "," pieces = answer →
       Forall comma_free pieces →
       mapM float_of_str pieces = Some predictions →
       length predictions = Pandas.height (test_csv E) →
       run.1 = Ok predictions).
Proof.
  intros run line body request answered comma_free.
  assert (Hbody : body = payload cell_str E) by (symmetry; apply payload_text).
  subst run request answered. rewrite Hbody. clear Hbody body line.
  split; [|split].
  - fold (log_of cell_str float_of_str E fuel).
    destruct (invocations_in_log cell_str float_of_str E fuel) as [-> | ->];
      repeat constructor.
  - intros predictions Hok.
    destruct (Notebook.notebook cell_str float_of_str E fuel []) as [r log] eqn:Hrun.
    cbn [fst snd] in *. subst r.
    destruct (complete_run _ _ _ _ _ _ Hrun) as (n & _ & _ & _ & Hparsed & ->).
    split.
    + unfold invocations, polling_trace.
      rewrite !omap_app, omap_rounds by reflexivity. reflexivity.
    + unfold parsed, response_Body, Py.decode in Hparsed.
      destruct (Py.utf8_valid _); [|discriminate].
      destruct (mapM _ _) as [floats|] eqn:Hfloats; [|discriminate].
      injection Hparsed as ->.
      eexists _, (Py.split ","%char _). split; [|split; [|split; [|exact Hfloats]]].
      * apply String.list_byte_of_string_of_list_byte.
      * rewrite <- join_concat. apply (join_split ","%char).
      * eapply Forall_impl; [apply split_pieces|].
        intros piece Hpiece. apply occurs_In, Hpiece.
  - intros answer pieces predictions Hpast Hfile Hanswer Hascii Hjoin Hfree Hfloats Hrows.
    destruct (notebook_cases cell_str float_of_str E fuel)
      as [(n & _ & _ & _ & Hrun)|[_ Hout]];
      [|rewrite Hout in Hpast; contradiction Hpast; reflexivity].
    rewrite Hrun. cbn [fst]. unfold evaluated, parsed, response_Body.
    rewrite Hfile. apply read_csv_frame in Hfile as [_ Hfile].
    rewrite (ascii_decodes _ (is_ascii_bytes _ Hascii)), <- Hanswer.
    rewrite String.string_of_list_byte_of_string.
    assert (Hsplit : Py.split ","%char answer = pieces).
    { rewrite <- Hjoin, <- join_concat. apply (split_join ","%char).
      - intros ->. apply length_mapM in Hfloats. cbn in Hfloats.
        unfold Pandas.is_empty in Hfile. apply orb_false_elim in Hfile as [_ Hh].
        apply Nat.eqb_neq in Hh. lia.
      - eapply Forall_impl; [exact Hfree|]. intros piece Hpiece.
        apply occurs_In, Hpiece. }
    rewrite Hsplit, Hfloats, Hrows, Nat.eqb_refl. reflexivity.
Qed.

End Texts.

Lemma csv_in_csv_out_witness :
  (Notebook.notebook (λ s, s) sample_float sample_env 3 []).1 = Ok ["0.9"; "0.1"].
Proof.
  refine (proj2 (proj2 (csv_in_csv_out (λ s, s) sample_float sample_env 3))
            "0.9,0.1" ["0.9"; "0.1"] ["0.9"; "0.1"] _ _ _ _ _ _ _ _).
  - vm_compute. discriminate.
  - reflexivity.
  - reflexivity.
  - repeat constructor.
  - reflexivity.
  - constructor; [|constructor; [|constructor]]; cbn; intros Hin;
      repeat (destruct Hin as [Hin|Hin]; [discriminate Hin|]); exact Hin.
  - reflexivity.
  - reflexivity.
Defined.

(** Three predictions for two rows: every piece converts, the cell with
    [crosstab] raises, and the run ends with the endpoint invoked and
    nothing deleted. *)
Example sample_run_miscounted :
  let run := Notebook.notebook (λ s, s) sample_float miscounted_env 3 [] in
  run.1 = Raise ValueError
  ∧ mapM sample_float (Py.split ","%char "0.9,0.1,0.5") = Some ["0.9"; "0.1"; "0.5"]
  ∧ length (invocations run.2) = 1
  ∧ List.filter is_delete run.2 = [].
Proof. vm_compute. repeat split. Qed.

(** A test file without a line: the cell that reads it raises, and the
    run ends with the file downloaded, no invocation and nothing deleted. *)
Example sample_run_empty_file :
  let run := Notebook.notebook (λ s, s) sample_float empty_file_env 3 [] in
  run.1 = Raise EmptyDataError
  ∧ downloads run.2
    = [(Notebook.processed_data empty_file_env +:+ "/test/test.csv", "data")]
  ∧ invocations run.2 = []
  ∧ List.filter is_delete run.2 = [].
Proof. vm_compute. repeat split. Qed.

(** A workflow run in ERROR that has left no test file: the status is
    printed, the download is asked for, the cell that reads the file
    raises, and the run ends with no invocation and nothing deleted. *)
Example sample_run_missing_file :
  let run := Notebook.notebook (λ s, s) sample_float missing_file_env 1 [] in
  run.1 = Raise FileNotFoundError
  ∧ last (printed run.2) = Some "ERROR"
  ∧ downloads run.2
    = [(Notebook.processed_data missing_file_env +:+ "/test/test.csv", "data")]
  ∧ invocations run.2 = []
  ∧ List.filter is_delete run.2 = [].
Proof. vm_compute. repeat split. Qed.
